(** * Xopt driver (xopt/base.py): a shallow embedding and its properties

    The development follows [class Xopt] of [xopt/base.py]:
    - tables ([pandas.DataFrame]) are lists of labelled rows, a row being a
      finite map from column name to cell;
    - the driver object is the record [Xopt]; its methods are functions on
      a state made of the object and of the outside world (the calls
      received by the evaluator, the files written);
    - a Python exception is the [Raise] result of a state-and-error monad
      that keeps the state reached when the exception was raised. *)

From stdpp Require Import gmap strings list fin_maps sorting.
From Stdlib Require Import ZArith Lia.

Open Scope string_scope.
Open Scope list_scope.
Open Scope Z_scope.

(** ** Cells, rows and tables *)

(** A scalar cell is numeric or not.  The driver never computes with a
    numeric payload, it only moves it around, so an integer stands for it. *)
Inductive Scalar : Type :=
| SNum (x : Z)
| SText (s : string).

(** A cell holds a scalar or a list of scalars (a list-like result). *)
Inductive Cell : Type :=
| CScalar (v : Scalar)
| CList (vs : list Scalar).

Global Instance Scalar_eq_dec : EqDecision Scalar.
Proof. solve_decision. Defined.

Global Instance Cell_eq_dec : EqDecision Cell.
Proof. solve_decision. Defined.

(** A row maps column names to cells; a missing key is a missing value. *)
Abbreviation Row := (gmap string Cell).

(** A table is the list of its rows, each with its index label, in order. *)
Abbreviation DataFrame := (list (Z * Row)).

(** [len(df)] *)
Definition len (df : DataFrame) : nat := length df.

(** [df.index] *)
Definition index (df : DataFrame) : list Z := df.*1.

(** [np.arange(a, b)] on row counts. *)
Definition arange (a b : nat) : list Z := Z.of_nat <$> seq a (b - a).

(** [df.index = labels], for as many labels as rows. *)
Definition set_index (labels : list Z) (df : DataFrame) : DataFrame :=
  zip labels (df.*2).

(** [df[name] = value]: the column is set to the scalar in every row. *)
Definition set_column (name : string) (value : Cell) (df : DataFrame) : DataFrame :=
  prod_map id (insert name value) <$> df.

(** The index of a table is dense when it is [0..n-1] in this order. *)
Definition dense (df : DataFrame) : Prop := index df = arange 0 (len df).

(** The batch as [add_data] stores it after [n] rows. *)
Definition relabel (n : nat) (new_data : DataFrame) : DataFrame :=
  set_index (arange n (n + len new_data)) new_data.

(** In the words of the specification: the labels of a batch of [m] rows
    that continue from the largest label of the table plus one, or from 0
    when the table has no row. *)
Definition labels_after_max (df : DataFrame) (m : nat) : list Z :=
  let start :=
    match index df with
    | [] => 0
    | i :: labels => foldr Z.max i labels + 1
    end in
  (λ j : nat, start + Z.of_nat j) <$> seq 0 m.

(** [rows] of an optional table: no table and the empty table have none. *)
Definition rows_of (d : option DataFrame) : DataFrame := default [] d.

(** ** Errors and the monad of the driver *)

(** The failures of the driver, named after the taxonomy of the
    specification.  In Python: [ConfigurationError] is the [ValueError] of
    [run] and [__init__]; [ValidationError] is raised by
    [vocs.validate_input_data], by [generator.validate_point] and by the
    [DataFrame] constructor on a ragged block; [OutputValidationError] by
    [validate_outputs]; [ShapeError] by [explode_all_columns];
    [SerializationError] by [open] in [dump] and by [DataFrame.to_json];
    [KeyError] by [DataFrame.drop];
    [AttributeError] by a method call on [None]; [CollaboratorError] is
    whatever the generator or the evaluator raise themselves. *)
Inductive XoptError : Type :=
| ConfigurationError
| ValidationError
| OutputValidationError
| ShapeError
| SerializationError
| KeyError
| AttributeError
| CollaboratorError (msg : string).

(** A call returns a value or raises. *)
Inductive Result (A : Type) : Type :=
| Ok (a : A)
| Raise (e : XoptError).
Arguments Ok {A} a.
Arguments Raise {A} e.

(** A computation over a state [S]: an exception does not roll the state
    back, so the state comes out in both cases. *)
Definition M (S A : Type) : Type := S → Result A * S.

Definition ret {S A} (a : A) : M S A := λ s, (Ok a, s).
Definition raise {S A} (e : XoptError) : M S A := λ s, (Raise e, s).
Definition bind {S A B} (m : M S A) (f : A → M S B) : M S B :=
  λ s, match m s with
       | (Ok a, s') => f a s'
       | (Raise e, s') => (Raise e, s')
       end.
Definition lift {S A} (r : Result A) : M S A := λ s, (r, s).
Definition require {S} (b : bool) (e : XoptError) : M S unit :=
  if b then ret tt else raise e.

Declare Scope xopt_scope.
Delimit Scope xopt_scope with xopt.
Notation "'do' x <- m ; f" := (bind m (λ x, f))
  (at level 10, x name, m at level 100, f at level 200) : xopt_scope.
Notation "'do_' m ; f" := (bind m (λ _, f))
  (at level 10, m at level 100, f at level 200) : xopt_scope.
Open Scope xopt_scope.

(** ** Inputs of [evaluate_data] *)

(** [Union[DataFrame, List[Dict], Dict[str, List], Dict[str, float]]]: the
    two dictionary shapes are one Python type, told apart by their values. *)
Inductive InputData : Type :=
| FromDataFrame (df : DataFrame)
| FromRecords (records : list Row)
| FromDict (d : Row).

(** The lengths of the list-valued cells of a row. *)
Definition list_lengths (r : Row) : list nat :=
  omap (λ kv, match kv.2 with CList vs => Some (length vs) | CScalar _ => None end)
       (map_to_list r).

(** Element [j] of a list-valued cell; a scalar is repeated. *)
Definition pick (j : nat) (c : Cell) : Cell :=
  match c with
  | CList vs => from_option CScalar c (vs !! j)
  | CScalar _ => c
  end.

(** [DataFrame(d)] for a dictionary [d]: the lists of [d] must have one
    common length and give one row per position, the scalars repeated;
    [ValueError] when the lengths differ, and when no value is a list
    unless [d] is empty. *)
Definition DataFrame_of_dict (d : Row) : Result DataFrame :=
  if decide (d = ∅) then Ok []
  else
    match list_lengths d with
    | [] => Raise ValidationError
    | n :: ns =>
        if forallb (Nat.eqb n) ns
        then Ok ((λ j : nat, (Z.of_nat j, pick j <$> d)) <$> seq 0 n)
        else Raise ValidationError
    end.

(** [DataFrame(d, index=[0])]: the single row 0; a list of [d] must have
    one element. *)
Definition single_row (d : Row) : Result DataFrame :=
  if forallb (Nat.eqb 1) (list_lengths d)
  then Ok [(0, pick 0 <$> d)]
  else Raise ValidationError.

(** Lines 332-336: [DataFrame(deepcopy(input_data))] and, on
    [ValueError], [DataFrame(deepcopy(input_data), index=[0])].  A table
    is taken as it is; a list of records gives one row per record,
    labelled by position. *)
Definition to_DataFrame (input_data : InputData) : Result DataFrame :=
  match input_data with
  | FromDataFrame df => Ok df
  | FromRecords records => Ok (zip (arange 0 (length records)) records)
  | FromDict d =>
      match DataFrame_of_dict d with
      | Ok df => Ok df
      | Raise _ => single_row d
      end
  end.

(** ** The collaborators *)

(** The problem definition ([xopt.vocs.VOCS]), as far as the driver uses
    it: the constants, the names of the declared outputs and the check of
    an input table ([validate_input_data] raises unless the table fits). *)
Record VOCS : Type := {
  objectives : list string;
  constraints : list string;
  constants : list (string * Scalar);
  validate_input_data : DataFrame → bool
}.

(** The evaluator ([xopt.evaluator.Evaluator]): its two entry points
    return a result or raise. *)
Record Evaluator : Type := {
  max_workers : Z;
  evaluator_evaluate : Row → Result Row;
  evaluator_evaluate_data : DataFrame → Result DataFrame
}.

(** A generator object: the attribute [data] that the driver reads and
    assigns, and the state [C] of the algorithm behind it. *)
Record Generator (C : Type) : Type := {
  gen_data : option DataFrame;
  gen_state : C
}.
Arguments gen_data {C} g.
Arguments gen_state {C} g.

(** [generator.data = d] *)
Definition assign_data {C} (d : option DataFrame) (g : Generator C) : Generator C :=
  {| gen_data := d; gen_state := gen_state g |}.

(** The class of a generator: its registered name, the two [isinstance]
    tests of the driver ([StateOwner], [SequentialGenerator]), and its
    methods.  [generate] returns candidates or [None], or raises;
    [validate_point g table] tells whether [table] is the candidate that
    [g] has proposed, and the method raises when it is not. *)
Record GeneratorClass (C : Type) : Type := {
  name : string;
  state_owner : bool;
  sequential : bool;
  generate : Generator C → Z → Result (option InputData) * Generator C;
  generator_add_data : DataFrame → Generator C → Generator C;
  generator_set_data : DataFrame → Generator C → Generator C;
  is_active : Generator C → bool;
  validate_point : Generator C → DataFrame → bool
}.
Arguments name {C} g.
Arguments state_owner {C} g.
Arguments sequential {C} g.
Arguments generate {C} g _ _.
Arguments generator_add_data {C} g _ _.
Arguments generator_set_data {C} g _ _.
Arguments is_active {C} g _.
Arguments validate_point {C} g _ _.

(** ** The driver object and the world around it *)

(** The fields of [class Xopt], lines 95-123. *)
Record Xopt (C : Type) : Type := {
  vocs : VOCS;
  generator : Generator C;
  evaluator : Evaluator;
  strict : bool;
  dump_file : option string;
  max_evaluations : option Z;
  data : option DataFrame;
  serialize_torch : bool;
  serialize_inline : bool
}.
Arguments vocs {C} x.
Arguments generator {C} x.
Arguments evaluator {C} x.
Arguments strict {C} x.
Arguments dump_file {C} x.
Arguments max_evaluations {C} x.
Arguments data {C} x.
Arguments serialize_torch {C} x.
Arguments serialize_inline {C} x.

(** [self.data = d] and [self.generator = g] *)
Definition with_data {C} (d : option DataFrame) (X : Xopt C) : Xopt C :=
  {| vocs := vocs X; generator := generator X; evaluator := evaluator X;
     strict := strict X; dump_file := dump_file X;
     max_evaluations := max_evaluations X; data := d;
     serialize_torch := serialize_torch X;
     serialize_inline := serialize_inline X |}.

Definition with_generator {C} (g : Generator C) (X : Xopt C) : Xopt C :=
  {| vocs := vocs X; generator := g; evaluator := evaluator X;
     strict := strict X; dump_file := dump_file X;
     max_evaluations := max_evaluations X; data := data X;
     serialize_torch := serialize_torch X;
     serialize_inline := serialize_inline X |}.

(** The fields that no method assigns. *)
Definition same_settings {C} (X X' : Xopt C) : Prop :=
  vocs X' = vocs X ∧ evaluator X' = evaluator X ∧ strict X' = strict X
  ∧ dump_file X' = dump_file X ∧ max_evaluations X' = max_evaluations X.

(** The copy of the generator matches the dataset row for row. *)
Definition mirrored {C} (X : Xopt C) : Prop :=
  rows_of (gen_data (generator X)) = rows_of (data X).

(** [n_data] *)
Definition n_data {C} (X : Xopt C) : nat :=
  match data X with
  | None => 0%nat
  | Some d => len d
  end.

(** What the evaluator has been asked, in order. *)
Inductive EvalCall : Type :=
| CallEvaluate (input : Row)
| CallEvaluateData (input_data : DataFrame).

(** What [dump] writes: the generator block opens with the registered
    name of the generator, the dataset is written whole. *)
Record Snapshot : Type := {
  snap_generator_name : string;
  snap_strict : bool;
  snap_max_evaluations : option Z;
  snap_data : option DataFrame
}.

(** The world: the calls that the evaluator has received, the files
    that can be written, and what has been written to them, last first. *)
Record World : Type := {
  calls : list EvalCall;
  writable : string → bool;
  files : list (string * Snapshot)
}.

(** The state that a method works on. *)
Record State (C : Type) : Type := {
  self : Xopt C;
  world : World
}.
Arguments self {C} s.
Arguments world {C} s.
Arguments Build_State {C} self world.

(** ** Helpers of the driver that live outside [base.py] *)

(** A cell that holds a number, or numbers only. *)
Definition is_number (v : Scalar) : bool :=
  match v with
  | SNum _ => true
  | SText _ => false
  end.

Definition is_numeric (c : option Cell) : bool :=
  match c with
  | Some (CScalar v) => is_number v
  | Some (CList vs) => forallb is_number vs
  | None => false
  end.

(** The names of the declared outputs: objectives, then constraints. *)
Definition declared_outputs (v : VOCS) : list string :=
  objectives v ++ constraints v.

(** Modelled from the spec: one result row of the explosion.  A row
    without list-valued cell is kept; a row whose list-valued cells share
    one length [n] gives [n] rows under the label of the row, the
    scalars repeated in each; different lengths are a [ShapeError]. *)
Definition explode_row (r : Z * Row) : Result DataFrame :=
  match list_lengths r.2 with
  | [] => Ok [r]
  | n :: ns =>
      if forallb (Nat.eqb n) ns
      then Ok ((λ j : nat, (r.1, pick j <$> r.2)) <$> seq 0 n)
      else Raise ShapeError
  end.

(** The rows that a row with list-valued cells of length [n] stands for,
    in the words of the specification: one row per list element, under
    the label of the row; a row without list-valued cell stands for
    itself. *)
Definition exploded (n : nat) (r : Z * Row) : DataFrame :=
  match list_lengths r.2 with
  | [] => [r]
  | _ :: _ => (λ j : nat, (r.1, pick j <$> r.2)) <$> seq 0 n
  end.

(** Modelled from the spec: [explode_all_columns] is imported from
    [xopt.utils] and its body is not in [base.py].  The rows are exploded
    one by one, in order; the first failure is the failure of the whole
    table. *)
Fixpoint explode_all_columns (output_data : DataFrame) : Result DataFrame :=
  match output_data with
  | [] => Ok []
  | r :: rest =>
      match explode_row r with
      | Raise e => Raise e
      | Ok rows =>
          match explode_all_columns rest with
          | Raise e => Raise e
          | Ok rows' => Ok (rows ++ rows')
          end
      end
  end.

(** [df.drop(labels=indices)]: every label must be present. *)
Definition drop_labels (indices : list Z) (df : DataFrame) : Result DataFrame :=
  if forallb (λ i, bool_decide (i ∈ index df)) indices
  then Ok (filter (λ r : Z * Row, r.1 ∉ indices) df)
  else Raise KeyError.

(** ** The generator block of the document *)

(** Lines 556 and 576-578: [{"name": self.generator.name} | block].  The
    right operand of [|] wins, so a field [name] of the block hides the
    registered name. *)
Definition tag_generator (registered : string) (block : gmap string Scalar)
  : gmap string Scalar :=
  block ∪ {[ "name" := SText registered ]}.

(** Line 138: [name = data["generator"].pop("name")]. *)
Definition pop_name (block : gmap string Scalar)
  : Result (Scalar * gmap string Scalar) :=
  match block !! "name" with
  | Some tag => Ok (tag, delete "name" block)
  | None => Raise KeyError
  end.

(** ** Contracts of the collaborators *)

(** [generate(n)] proposes at most [n] candidates. *)
Definition bounded_batches {C} (cls : GeneratorClass C) : Prop :=
  ∀ g n new_samples g' df,
    generate cls g n = (Ok (Some new_samples), g') →
    to_DataFrame new_samples = Ok df →
    Z.of_nat (len df) ≤ n.

(** The evaluator answers with at most one row per candidate, and with
    scalar cells only, so that nothing is exploded. *)
Definition row_per_candidate (ev : Evaluator) : Prop :=
  ∀ tbl out,
    evaluator_evaluate_data ev tbl = Ok out →
    (len out ≤ len tbl)%nat ∧ ∀ r k vs, r ∈ out → r.2 !! k ≠ Some (CList vs).


(** Modelled from the spec: [Generator.add_data] of [xopt.generator] has
    no body in [base.py].  The specification has the generator keep its
    copy of the dataset up to date incrementally (capability:
    accumulative): the rows it is given are appended to the rows it has. *)
Definition accumulative {C} (cls : GeneratorClass C) : Prop :=
  ∀ new_data g,
    rows_of (gen_data (generator_add_data cls new_data g))
    = rows_of (gen_data g) ++ new_data.

(** The generator answers [None] to every call of [generate]. *)
Definition declines {C} (cls : GeneratorClass C) : Prop :=
  ∀ g n, (generate cls g n).1 = Ok None.

(** ** The methods of [Xopt] *)

Section Driver.
Context {C : Type}.
(** The class of the generator held by the driver. *)
Variable cls : GeneratorClass C.
(** [validate_outputs], imported from [xopt.evaluator]; its body is not in
    [base.py].  Line 353 calls it on the result table alone, and it
    returns or raises: it is the test of a table, [false] when it raises. *)
Variable validate_outputs : DataFrame → bool.

Definition get_self : M (State C) (Xopt C) := λ s, (Ok (self s), s).

Definition set_self (f : Xopt C → Xopt C) : M (State C) unit :=
  λ s, (Ok tt, Build_State (f (self s)) (world s)).

Definition log_call (c : EvalCall) : M (State C) unit :=
  λ s, (Ok tt,
        Build_State (self s)
          {| calls := calls (world s) ++ [c];
             writable := writable (world s);
             files := files (world s) |}).

(** [self.generator.generate(n)] *)
Definition call_generate (n : Z) : M (State C) (option InputData) :=
  λ s, let '(r, g) := generate cls (generator (self s)) n in
       (r, Build_State (with_generator g (self s)) (world s)).

(** [self.evaluator.evaluate(input)] *)
Definition call_evaluate (input : Row) : M (State C) Row :=
  do X <- get_self;
  do_ log_call (CallEvaluate input);
  lift (evaluator_evaluate (evaluator X) input).

(** [self.evaluator.evaluate_data(input_data)] *)
Definition call_evaluate_data (input_data : DataFrame) : M (State C) DataFrame :=
  do X <- get_self;
  do_ log_call (CallEvaluateData input_data);
  lift (evaluator_evaluate_data (evaluator X) input_data).

(** [add_data], lines 366-388.  [pd.concat] is the append of the rows,
    cell for cell: what pandas does to the type of a column when the
    two tables differ in it is below the cells of this embedding.  The
    generator comes last, line 388, after [self.data] is assigned; its
    [add_data] is a function of the class, which returns. *)
Definition add_data (new_data : DataFrame) (X : Xopt C) : Xopt C :=
  match data X with
  | Some d =>
      let new_data :=
        set_index (arange (len d) (len d + len new_data)) new_data in
      let X := with_data (Some (d ++ new_data)) X in
      with_generator (generator_add_data cls new_data (generator X)) X
  | None =>
      let new_data := set_index (arange 0 (len new_data)) new_data in
      let X := with_data (Some new_data) X in
      with_generator (generator_add_data cls new_data (generator X)) X
  end.

(** A sequence of [add_data] calls, one per batch. *)
Definition add_all (batches : list DataFrame) (X : Xopt C) : Xopt C :=
  foldl (λ X new_data, add_data new_data X) X batches.

(** [reset_data], lines 390-396. *)
Definition reset_data (X : Xopt C) : Xopt C :=
  let X := with_data (Some []) X in
  with_generator (assign_data (Some []) (generator X)) X.

(** [remove_data], lines 398-425: the result is the table returned
    when [inplace] is false, and [None] otherwise. *)
Definition remove_data (indices : list Z) (inplace : bool)
  : M (State C) (option DataFrame) :=
  do X <- get_self;
  match data X with
  | None => raise AttributeError
  | Some d =>
      do new_data <- lift (drop_labels indices d);
      let new_data := set_index (arange 0 (len new_data)) new_data in
      if inplace
      then
        do_ set_self (λ X,
              let X := with_data (Some new_data) X in
              with_generator (assign_data (Some new_data) (generator X)) X);
        ret None
      else ret (Some new_data)
  end.

(** The document of [json], lines 559-586, as far as [base.py] builds it. *)
Definition snapshot (X : Xopt C) : Snapshot :=
  {| snap_generator_name := name cls;
     snap_strict := strict X;
     snap_max_evaluations := max_evaluations X;
     snap_data := data X |}.

(** [dump], lines 512-538, called without argument: [open] fails on a
    file that cannot be written, and the document written is the
    [snapshot] of the driver. *)
Definition dump : M (State C) unit :=
  λ s, match dump_file (self s) with
       | None => (Raise ConfigurationError, s)
       | Some fname =>
           if writable (world s) fname
           then (Ok tt,
                 Build_State (self s)
                   {| calls := calls (world s);
                      writable := writable (world s);
                      files := (fname, snapshot (self s)) :: files (world s) |})
           else (Raise SerializationError, s)
       end.

(** The constants of the problem definition, set column by column. *)
Definition add_constants (v : VOCS) (input_data : DataFrame) : DataFrame :=
  foldl (λ df kv, set_column kv.1 (CScalar kv.2) df) input_data (constants v).

(** [evaluate_data], lines 303-364. *)
Definition evaluate_data (input_data : InputData) : M (State C) DataFrame :=
  do input_data <- lift (to_DataFrame input_data);
  do X <- get_self;
  do_ require (validate_input_data (vocs X) input_data) ValidationError;
  let input_data := add_constants (vocs X) input_data in
  do_ (if sequential cls
       then if is_active cls (generator X)
            then require (validate_point cls (generator X) input_data)
                         ValidationError
            else ret tt
       else ret tt);
  do output_data <- call_evaluate_data input_data;
  do_ (if strict X
       then require (validate_outputs output_data) OutputValidationError
       else ret tt);
  do output_data <- lift (explode_all_columns output_data);
  do_ set_self (add_data output_data);
  do_ (match dump_file X with
       | Some _ => dump
       | None => ret tt
       end);
  ret output_data.

(** The test of lines 345-348 alone: a sequential generator that is
    active must accept the table. *)
Definition candidate_ok (g : Generator C) (input_data : DataFrame) : bool :=
  if sequential cls
  then if is_active cls g then validate_point cls g input_data else true
  else true.

(** The world once the evaluator has received [input_data]. *)
Definition asked (input_data : DataFrame) (w : World) : World :=
  {| calls := calls w ++ [CallEvaluateData input_data];
     writable := writable w;
     files := files w |}.

(** The world once [dump] has written the document of [X] to [fname]. *)
Definition written (fname : string) (X : Xopt C) (w : World) : World :=
  {| calls := calls w;
     writable := writable w;
     files := (fname, snapshot X) :: files w |}.

(** What is left of [evaluate_data] once the evaluator has answered
    [r] to the table [tbl]. *)
Definition after_evaluator (s : State C) (tbl : DataFrame) (r : Result DataFrame)
  : Result DataFrame * State C :=
  let X := self s in
  let w := asked tbl (world s) in
  match r with
  | Raise e => (Raise e, Build_State X w)
  | Ok out =>
      if strict X && negb (validate_outputs out)
      then (Raise OutputValidationError, Build_State X w)
      else
        match explode_all_columns out with
        | Raise e => (Raise e, Build_State X w)
        | Ok rows =>
            let X' := add_data rows X in
            match dump_file X with
            | None => (Ok rows, Build_State X' w)
            | Some fname =>
                if writable w fname
                then (Ok rows, Build_State X' (written fname X' w))
                else (Raise SerializationError, Build_State X' w)
            end
        end
  end.

(** The loop of lines 297-298: the constants set in a record. *)
Definition with_constants (v : VOCS) (inputs : Row) : Row :=
  foldl (λ (inputs : Row) kv, <[kv.1 := CScalar kv.2]> inputs)
        inputs (constants v).

(** [evaluate], lines 279-301.  [inputs] is the private copy of the
    record of the caller, and line 300 checks [DataFrame(inputs,
    index=[0])]; the evaluator is given [input_dict]. *)
Definition evaluate (input_dict : Row) : M (State C) Row :=
  do X <- get_self;
  let inputs := input_dict in
  let inputs := with_constants (vocs X) inputs in
  do table <- lift (single_row inputs);
  do_ require (validate_input_data (vocs X) table) ValidationError;
  call_evaluate input_dict.

(** [step], lines 233-256. *)
Definition step : M (State C) unit :=
  do X <- get_self;
  let n_generate := max_workers (evaluator X) in
  do new_samples <- call_generate n_generate;
  match new_samples with
  | Some new_samples => do_ evaluate_data new_samples; ret tt
  | None => ret tt
  end.

(** The loop of [run], lines 268-277.  Python's [while True] has no
    bound: [fuel] bounds the number of trips, and [None] means that the
    trips allowed were not enough to leave the loop. *)
Fixpoint run_loop (fuel : nat) (s : State C) : option (Result unit * State C) :=
  match fuel with
  | O => None
  | S fuel =>
      let stop :=
        match max_evaluations (self s) with
        | Some cap => bool_decide (cap ≤ Z.of_nat (n_data (self s)))
        | None => false
        end in
      if stop then Some (Ok tt, s)
      else
        match step s with
        | (Ok _, s') => run_loop fuel s'
        | (Raise e, s') => Some (Raise e, s')
        end
  end.

(** [run], lines 258-277. *)
Definition run (fuel : nat) (s : State C) : option (Result unit * State C) :=
  match max_evaluations (self s) with
  | None => Some (Raise ConfigurationError, s)
  | Some _ => run_loop fuel s
  end.

(** The validator of the field [data], lines 163-185, for a table given
    at construction: the index is integer by the type of the labels,
    and the table goes to the generator by [set_data] or [add_data]. *)
Definition validate_data (v : DataFrame) (g : Generator C) : DataFrame * Generator C :=
  if state_owner cls
  then (v, generator_set_data cls v g)
  else (v, generator_add_data cls v g).

End Driver.


(** ** Concrete collaborators

    Small collaborators on which the statements below are run. *)

(** A candidate and result cells. *)
Definition num (x : Z) : Cell := CScalar (SNum x).

Definition point (x : Z) : Row := {[ "x" := num x ]}.

(** A problem over the variable [x] with the objective [f]: a table fits
    when every row has a number for [x]. *)
Definition vocs_xf (consts : list (string * Scalar)) : VOCS :=
  {| objectives := ["f"];
     constraints := [];
     constants := consts;
     validate_input_data :=
       forallb (λ r : Z * Row, is_numeric (r.2 !! "x")) |}.

(** A check of the result table alone, for [validate_outputs]: every row
    holds a number, or numbers, under [f]. *)
Definition numeric_f (output_data : DataFrame) : bool :=
  forallb (λ r : Z * Row, is_numeric (r.2 !! "f")) output_data.

(** An evaluator that sets the column [f] of every row to [result]. *)
Definition column_evaluator (workers : Z) (result : Cell) : Evaluator :=
  {| max_workers := workers;
     evaluator_evaluate := λ input, Ok (<["f" := result]> input);
     evaluator_evaluate_data := λ input_data, Ok (set_column "f" result input_data) |}.

(** An evaluator that answers each candidate with its score alone. *)
Definition scoring_evaluator (workers : Z) : Evaluator :=
  {| max_workers := workers;
     evaluator_evaluate := λ _, Ok {[ "f" := num 0 ]};
     evaluator_evaluate_data := λ input_data,
       Ok ((λ r : Z * Row, (r.1, ({[ "f" := num 0 ]} : Row))) <$> input_data) |}.

(** A problem that declares the single objective [o] and takes every
    input table. *)
Definition vocs_declaring (o : string) : VOCS :=
  {| objectives := [o];
     constraints := [];
     constants := [];
     validate_input_data := λ _, true |}.

(** An evaluator that answers every table with the table [out]. *)
Definition fixed_evaluator (out : DataFrame) : Evaluator :=
  {| max_workers := 1;
     evaluator_evaluate := λ _, Ok ∅;
     evaluator_evaluate_data := λ _, Ok out |}.

(** An evaluator that returns the table it is given, without output. *)
Definition silent_evaluator (workers : Z) : Evaluator :=
  {| max_workers := workers;
     evaluator_evaluate := λ input, Ok input;
     evaluator_evaluate_data := λ input_data, Ok input_data |}.

(** Modelled from the spec: the accumulative [add_data] of a generator,
    which appends the rows to its copy of the dataset. *)
Definition append_data {C} (new_data : DataFrame) (g : Generator C) : Generator C :=
  {| gen_data := Some (rows_of (gen_data g) ++ new_data);
     gen_state := gen_state g |}.

(** Modelled from the spec: the [set_data] of a state-owning generator,
    which replaces its copy of the dataset. *)
Definition replace_data {C} (new_data : DataFrame) (g : Generator C) : Generator C :=
  assign_data (Some new_data) g.

(** A generator that proposes the same point [n] times when asked for
    [n] candidates. *)
Definition constant_generator (x : Z) : GeneratorClass unit :=
  {| name := "constant";
     state_owner := false;
     sequential := false;
     generate := λ g n,
       if bool_decide (0 < n)
       then (Ok (Some (FromRecords (replicate (Z.to_nat n) (point x)))), g)
       else (Ok None, g);
     generator_add_data := append_data;
     generator_set_data := replace_data;
     is_active := λ _, false;
     validate_point := λ _ _, true |}.

(** A generator that has nothing to propose. *)
Definition exhausted_generator : GeneratorClass unit :=
  {| name := "exhausted";
     state_owner := false;
     sequential := false;
     generate := λ g _, (Ok None, g);
     generator_add_data := append_data;
     generator_set_data := replace_data;
     is_active := λ _, false;
     validate_point := λ _ _, true |}.

(** Modelled from the spec: a sequential generator.  Its state is the
    candidate proposed and not evaluated yet, if any; it is active when
    there is one; a table matches when it is that one record; the
    candidate is no longer outstanding once data comes in. *)
Definition sequential_generator : GeneratorClass (option Row) :=
  {| name := "sequential";
     state_owner := true;
     sequential := true;
     generate := λ g _,
       match gen_state g with
       | Some candidate => (Ok (Some (FromDict candidate)), g)
       | None => (Ok None, g)
       end;
     generator_add_data := λ new_data g,
       {| gen_data := Some (rows_of (gen_data g) ++ new_data); gen_state := None |};
     generator_set_data := λ new_data g,
       {| gen_data := Some new_data; gen_state := None |};
     is_active := λ g, bool_decide (is_Some (gen_state g));
     validate_point := λ g input_data,
       bool_decide (Some <$> input_data.*2 = [gen_state g]) |}.

(** A driver: strict, no dump file. *)
Definition new_xopt {C} (v : VOCS) (g : Generator C) (ev : Evaluator)
    (cap : option Z) (d : option DataFrame) : Xopt C :=
  {| vocs := v; generator := g; evaluator := ev; strict := true;
     dump_file := None; max_evaluations := cap; data := d;
     serialize_torch := false; serialize_inline := false |}.

(** The world before any call. *)
Definition quiet : World :=
  {| calls := []; writable := λ _, true; files := [] |}.

Definition start {C} (X : Xopt C) : State C := Build_State X quiet.

(** A generator object without data. *)
Definition blank {C} (c : C) : Generator C := {| gen_data := None; gen_state := c |}.

(** A driver built with a table: the validator of [data] hands the table
    to the generator. *)
Definition xopt_with_data {C} (cls : GeneratorClass C) (v : VOCS) (c : C)
    (ev : Evaluator) (cap : option Z) (d : DataFrame) : Xopt C :=
  let '(d, g) := validate_data cls d (blank c) in
  new_xopt v g ev cap (Some d).

(** Three evaluated rows. *)
Definition three_rows : DataFrame :=
  [(0, <["f" := num 0]> (point 1)); (1, <["f" := num 0]> (point 2));
   (2, <["f" := num 0]> (point 3))].

(** Two rows labelled 0 and 5. *)
Definition sparse_rows : DataFrame :=
  [(0, <["f" := num 0]> (point 1)); (5, <["f" := num 0]> (point 2))].

(** The drivers of the statements below. *)

(** Strict, with an evaluator that returns no objective. *)
Definition strict_state : State unit :=
  start (new_xopt (vocs_xf []) (blank tt) (silent_evaluator 1) None None).

(** A cap of 5 evaluations and 2 workers, no data yet. *)
Definition capped_state : State unit :=
  start (new_xopt (vocs_xf []) (blank tt) (scoring_evaluator 2) (Some 5) None).

Definition capped_state_end : State unit :=
  Eval vm_compute in
    match run (constant_generator 1) numeric_f 4 capped_state with
    | Some (_, s') => s'
    | None => capped_state
    end.

(** A cap of 1 evaluation and 1 worker, built with three rows. *)
Definition over_cap_state : State unit :=
  start (xopt_with_data (constant_generator 1) (vocs_xf []) tt
           (scoring_evaluator 1) (Some 1) three_rows).

(** A cap of 1 evaluation and 1 worker, no data yet, and an evaluator
    whose objective is a list of three numbers. *)
Definition listing_state : State unit :=
  start (new_xopt (vocs_xf []) (blank tt)
           (column_evaluator 1 (CList [SNum 1; SNum 2; SNum 3])) (Some 1) None).

Definition listing_state_end : State unit :=
  Eval vm_compute in
    match run (constant_generator 1) numeric_f 2 listing_state with
    | Some (_, s') => s'
    | None => listing_state
    end.



(** A problem with the constant [c = 7]. *)
Definition constant_state : State unit :=
  start (new_xopt (vocs_xf [("c", SNum 7)]) (blank tt)
           (column_evaluator 1 (num 0)) None None).

(** A sequential generator that holds the candidate [{x: 1}]. *)
Definition sequential_state : State (option Row) :=
  start (new_xopt (vocs_xf []) {| gen_data := None; gen_state := Some (point 1) |}
           (column_evaluator 1 (num 0)) None None).

(** A driver built with the labels 0 and 5, and one built with 0, 1, 2. *)
Definition sparse_xopt : Xopt unit :=
  xopt_with_data (constant_generator 1) (vocs_xf []) tt
    (column_evaluator 1 (num 0)) None sparse_rows.

Definition dense_xopt : Xopt unit :=
  xopt_with_data (constant_generator 1) (vocs_xf []) tt
    (column_evaluator 1 (num 0)) None three_rows.

(** A cap of 5 evaluations, no data, for a generator that declines. *)
Definition stalled_state : State unit :=
  start (new_xopt (vocs_xf []) (blank tt) (scoring_evaluator 2) (Some 5) None).


(** ** Construction: [validate_model], lines 125-154 *)

(** A value of the dictionary handed to [model_validate]: a value of the
    document, or the problem definition put under the key [vocs]. *)
Inductive Field : Type :=
| FValue (v : Scalar)
| FVocs (v : VOCS).

(** [data["vocs"]]: a dictionary or a [VOCS] object. *)
Inductive VocsArg : Type :=
| VocsDict (d : gmap string Scalar)
| VocsObject (v : VOCS).

(** A generator class as [get_generator] returns it: the class and its
    [model_validate]. *)
Record GeneratorModel (C : Type) : Type := {
  gm_class : GeneratorClass C;
  model_validate : gmap string Field → Result (Generator C)
}.
Arguments gm_class {C} _.
Arguments model_validate {C} _ _.

(** [data["generator"]]: a dictionary, the name of a generator, or a
    generator object with its class. *)
Inductive GeneratorArg (C : Type) : Type :=
| GenDict (block : gmap string Scalar)
| GenName (registered : string)
| GenObject (cls : GeneratorClass C) (g : Generator C).
Arguments GenDict {C} block.
Arguments GenName {C} registered.
Arguments GenObject {C} cls g.

(** The two keys of [data] that [validate_model] reads; [None] is a
    missing key. *)
Record ModelData (C : Type) : Type := {
  md_vocs : option VocsArg;
  md_generator : option (GeneratorArg C)
}.
Arguments md_vocs {C} _.
Arguments md_generator {C} _.
Arguments Build_ModelData {C} md_vocs md_generator.

(** A result passed on to the next call; a failure ends the sequence. *)
Definition and_then {A B} (r : Result A) (f : A → Result B) : Result B :=
  match r with
  | Ok a => f a
  | Raise e => Raise e
  end.

Section Construction.
Context {C : Type}.
(** The constructor of [VOCS] on the entries of a dictionary, and
    [get_generator(name)]; both are defined outside [base.py]. *)
Variable VOCS_new : gmap string Scalar → Result VOCS.
Variable get_generator : Scalar → Result (GeneratorModel C).

(** [{**block, "vocs": v}] *)
Definition with_vocs (block : gmap string Scalar) (v : VOCS) : gmap string Field :=
  <["vocs" := FVocs v]> (FValue <$> block).

(** [validate_model] on a dictionary: the problem definition, and the
    generator with its class.  [deepcopy] gives equal values. *)
Definition validate_model (data : ModelData C)
  : Result (VOCS * (GeneratorClass C * Generator C)) :=
  match md_vocs data with
  | None => Raise KeyError
  | Some vocs_arg =>
      and_then
        match vocs_arg with
        | VocsDict d => VOCS_new d
        | VocsObject v => Ok v
        end
        (λ v,
          match md_generator data with
          | None => Raise KeyError
          | Some (GenDict block) =>
              and_then (pop_name block) (λ popped,
              and_then (get_generator popped.1) (λ generator_class,
              and_then (model_validate generator_class (with_vocs popped.2 v)) (λ g,
              Ok (v, (gm_class generator_class, g)))))
          | Some (GenName registered) =>
              and_then (get_generator (SText registered)) (λ generator_class,
              and_then (model_validate generator_class (with_vocs ∅ v)) (λ g,
              Ok (v, (gm_class generator_class, g))))
          | Some (GenObject cls g) => Ok (v, (cls, g))
          end)
  end.

End Construction.

(** ** Progress of [run] *)

(** Every step of a driver with the settings of [X0] returns and adds at
    least one row. *)
Definition productive {C} (cls : GeneratorClass C)
  (validate_outputs : DataFrame → bool) (X0 : Xopt C) : Prop :=
  ∀ s : State C,
    same_settings X0 (self s) →
    ∃ s', step cls validate_outputs s = (Ok tt, s') ∧ (n_data (self s) < n_data (self s'))%nat.

(** ** More concrete collaborators *)

(** A registry that knows the constant generator, whose fields are none. *)
Definition one_generator_registry (n : Scalar) : Result (GeneratorModel unit) :=
  if decide (n = SText "constant")
  then Ok {| gm_class := constant_generator 1;
             model_validate := λ _, Ok (blank tt) |}
  else Raise (CollaboratorError "no such generator").

(** A constructor of problems that knows one problem. *)
Definition one_vocs (d : gmap string Scalar) : Result VOCS := Ok (vocs_xf []).

(** Not strict, with an evaluator that returns no objective. *)
Definition lenient_state : State unit :=
  Build_State
    {| vocs := vocs_xf []; generator := blank tt; evaluator := silent_evaluator 1;
       strict := false; dump_file := None; max_evaluations := None;
       data := None; serialize_torch := false; serialize_inline := false |}
    quiet.

(** An evaluator that fails. *)
Definition failing_evaluator : Evaluator :=
  {| max_workers := 1;
     evaluator_evaluate := λ _, Raise (CollaboratorError "evaluation failed");
     evaluator_evaluate_data := λ _, Raise (CollaboratorError "evaluation failed") |}.

Definition failing_state : State unit :=
  start (new_xopt (vocs_xf []) (blank tt) failing_evaluator None (Some three_rows)).

(** A driver that dumps to [out.yaml], in a world where the file can be
    written and in one where it cannot. *)
Definition dumping_xopt : Xopt unit :=
  {| vocs := vocs_xf []; generator := blank tt; evaluator := scoring_evaluator 1;
     strict := true; dump_file := Some "out.yaml"; max_evaluations := None;
     data := None; serialize_torch := false; serialize_inline := false |}.

Definition dumping_state : State unit := Build_State dumping_xopt quiet.

Definition read_only_state : State unit :=
  Build_State dumping_xopt {| calls := []; writable := λ _, false; files := [] |}.

(** The states reached by [evaluate_data] of the candidate [{x: 1}]. *)
Definition strict_state_end : State unit :=
  Eval vm_compute in
    (evaluate_data (constant_generator 1) numeric_f (FromDict (point 1)) strict_state).2.

Definition lenient_state_end : State unit :=
  Eval vm_compute in
    (evaluate_data (constant_generator 1) numeric_f (FromDict (point 1)) lenient_state).2.

Definition dumping_state_end : State unit :=
  Eval vm_compute in
    (evaluate_data (constant_generator 1) numeric_f (FromDict (point 1)) dumping_state).2.

Definition read_only_state_end : State unit :=
  Eval vm_compute in
    (evaluate_data (constant_generator 1) numeric_f (FromDict (point 1)) read_only_state).2.

(** The state reached by [evaluate] of the record [{x: 1}]. *)
Definition constant_state_end : State unit :=
  Eval vm_compute in (evaluate (point 1) constant_state).2.

(** A row that comes with its own value for the constant [c]. *)
Definition row_with_c : Row := <["c" := num 1]> (point 1).

(** A dictionary with a list of two candidates and a scalar. *)
Definition two_points : Row :=
  <["x" := CList [SNum 1; SNum 2]]> {[ "y" := num 3 ]}.

(** A generator block with one field. *)
Definition seeded_block : gmap string Scalar := {[ "seed" := SNum 3 ]}.
(** ** The document: [json], lines 559-586, and the construction from it *)

(** The table of the document, [json.loads(self.data.to_json())]: for
    each column, its cells by label; a missing value is written [null].
    JSON writes a label in decimal and [astype(np.int64)], line 168,
    reads it back: the labels of the block are the integers themselves. *)
Abbreviation DataBlock := (gmap string (gmap Z (option Cell))).

(** The document, parsed: the blocks of the three objects, the scalar
    fields, and the table. *)
Record Document : Type := {
  doc_vocs : gmap string Scalar;
  doc_generator : gmap string Scalar;
  doc_evaluator : gmap string Scalar;
  doc_strict : bool;
  doc_dump_file : option string;
  doc_max_evaluations : option Z;
  doc_data : option DataBlock;
  doc_serialize_torch : bool;
  doc_serialize_inline : bool
}.

(** The names of the columns that hold a value in some row. *)
Definition columns (df : DataFrame) : gset string := ⋃ (dom <$> df.*2).

Section Json.
Context {C : Type}.
Variable cls : GeneratorClass C.
(** [XoptBaseModel.to_json] of [xopt.pydantic], which is not in
    [base.py], on the three objects of the driver; the scalar fields are
    written as they are. *)
Variable vocs_to_json : VOCS → gmap string Scalar.
Variable generator_to_json : Generator C → gmap string Scalar.
Variable evaluator_to_json : Evaluator → gmap string Scalar.
(** What [DataFrame.to_json] of pandas writes for a scalar and
    [json.loads] reads back: a number comes back as its decimal text
    says. *)
Variable cell_to_json : Scalar → Scalar.

Definition write_cell (c : Cell) : Cell :=
  match c with
  | CScalar v => CScalar (cell_to_json v)
  | CList vs => CList (cell_to_json <$> vs)
  end.

(** One column of the block: the cell of every row, by label. *)
Definition column (name : string) (df : DataFrame) : gmap Z (option Cell) :=
  list_to_map ((λ r : Z * Row, (r.1, write_cell <$> r.2 !! name)) <$> df).

(** The block of a table: its columns, by name. *)
Definition table_block (df : DataFrame) : DataBlock :=
  set_to_map (λ name, (name, column name df)) (columns df).

(** [json.loads(df.to_json())]: pandas writes the table column by
    column, and refuses a table in which a label is repeated. *)
Definition DataFrame_to_json (df : DataFrame) : Result DataBlock :=
  if bool_decide (NoDup (index df))
  then Ok (table_block df)
  else Raise SerializationError.

(** [json], lines 559-586: the registered name is put on the block of
    the generator, and the table is written by pandas. *)
Definition json (X : Xopt C) : Result Document :=
  let generator_block :=
    tag_generator (name cls) (generator_to_json (generator X)) in
  and_then
    match data X with
    | Some d => and_then (DataFrame_to_json d) (λ block, Ok (Some block))
    | None => Ok None
    end
    (λ data_block,
      Ok {| doc_vocs := vocs_to_json (vocs X);
            doc_generator := generator_block;
            doc_evaluator := evaluator_to_json (evaluator X);
            doc_strict := strict X;
            doc_dump_file := dump_file X;
            doc_max_evaluations := max_evaluations X;
            doc_data := data_block;
            doc_serialize_torch := serialize_torch X;
            doc_serialize_inline := serialize_inline X |}).

End Json.

(** The labels of a block: those of its columns together. *)
Definition block_labels (v : DataBlock) : gset Z :=
  ⋃ (dom <$> (map_to_list v).*2).

(** The row of a label: the cells that the columns hold for it, [null]
    being a missing value. *)
Definition block_row (v : DataBlock) (label : Z) : Row :=
  omap (λ cells : gmap Z (option Cell), mjoin (cells !! label)) v.

(** Lines 166-169 on a dictionary of columns: [pd.DataFrame(v)], the
    index cast to integers, and [sort_index()], which puts the rows in
    the ascending order of their labels. *)
Definition DataFrame_of_json (v : DataBlock) : DataFrame :=
  (λ label, (label, block_row v label))
    <$> merge_sort Z.le (elements (block_labels v)).

Section FromDocument.
Context {C : Type}.
(** The constructors of the collaborators and the registry, all
    defined outside [base.py]: [VOCS(...)], [get_generator(name)],
    [Evaluator(...)], and what a generator makes of [add_data(None)] or
    [set_data(None)]. *)
Variable VOCS_new : gmap string Scalar → Result VOCS.
Variable get_generator : Scalar → Result (GeneratorModel C).
Variable Evaluator_new : gmap string Scalar → Result Evaluator.
Variable without_data : GeneratorClass C → Generator C → Generator C.

(** [validate_evaluator], lines 156-161, on a dictionary. *)
Definition validate_evaluator (value : gmap string Scalar) : Result Evaluator :=
  Evaluator_new value.

(** [validate_data], lines 163-185, on the value of a document: a
    dictionary of columns becomes a table sorted by label, and the
    table, or [None], goes to the generator. *)
Definition validate_data_of_json (cls : GeneratorClass C) (v : option DataBlock)
    (g : Generator C) : option DataFrame * Generator C :=
  match v with
  | Some block =>
      let '(d, g) := validate_data cls (DataFrame_of_json block) g in
      (Some d, g)
  | None => (None, without_data cls g)
  end.

(** [Xopt] called on the entries of a document: [validate_model] first, then the validators of
    the fields in the order of the fields.  The result is the driver
    with the class of its generator. *)
Definition Xopt_of_document (doc : Document)
  : Result (GeneratorClass C * Xopt C) :=
  and_then
    (validate_model VOCS_new get_generator
       (Build_ModelData (Some (VocsDict (doc_vocs doc)))
          (Some (GenDict (doc_generator doc)))))
    (λ built,
      let cls := built.2.1 in
      and_then (validate_evaluator (doc_evaluator doc)) (λ ev,
      let '(d, g) := validate_data_of_json cls (doc_data doc) built.2.2 in
      Ok (cls,
          {| vocs := built.1; generator := g; evaluator := ev;
             strict := doc_strict doc; dump_file := doc_dump_file doc;
             max_evaluations := doc_max_evaluations doc; data := d;
             serialize_torch := doc_serialize_torch doc;
             serialize_inline := doc_serialize_inline doc |}))).

End FromDocument.

(** ** Concrete serialisers *)

(** Serialisers of a problem, a generator and an evaluator that have one
    value each, and cells that are written as they are. *)
Definition no_fields {A} (_ : A) : gmap string Scalar := ∅.

Definition one_evaluator (value : gmap string Scalar) : Result Evaluator :=
  Ok (scoring_evaluator 1).

Definition same_cell (v : Scalar) : Scalar := v.

Definition json_of (X : Xopt unit) : Result Document :=
  json (constant_generator 1) no_fields (λ _, seeded_block) no_fields same_cell X.

Definition xopt_of (doc : Document) : Result (GeneratorClass unit * Xopt unit) :=
  Xopt_of_document one_vocs one_generator_registry one_evaluator (λ _ g, g) doc.

(** A driver built with three rows labelled 0, 1, 2, and one built with
    two rows labelled 1 and 0, in this order. *)
Definition saved_xopt : Xopt unit :=
  xopt_with_data (constant_generator 1) (vocs_xf []) tt (scoring_evaluator 1)
    None three_rows.

Definition unsorted_rows : DataFrame :=
  [(1, <["f" := num 0]> (point 1)); (0, <["f" := num 0]> (point 2))].

Definition unsorted_xopt : Xopt unit :=
  xopt_with_data (constant_generator 1) (vocs_xf []) tt (scoring_evaluator 1)
    None unsorted_rows.

(** A table with the label 2 twice. *)
Definition repeated_rows : DataFrame :=
  [(0, point 1); (2, point 2); (2, point 3)].

(** The driver built from the document of the second. *)
Definition unsorted_xopt_back : Xopt unit :=
  Eval vm_compute in
    match and_then (json_of unsorted_xopt) xopt_of with
    | Ok (_, X) => X
    | Raise _ => unsorted_xopt
    end.
(** ** Tables: labels and lengths *)

Lemma length_arange a b : length (arange a b) = (b - a)%nat.
Proof. unfold arange. by rewrite length_fmap, length_seq. Qed.

Lemma arange_app a b c :
  (a ≤ b)%nat → (b ≤ c)%nat → arange a c = arange a b ++ arange b c.
Proof.
  intros Hab Hbc. unfold arange.
  replace (c - a)%nat with ((b - a) + (c - b))%nat by lia.
  rewrite seq_app, fmap_app. do 3 f_equal. lia.
Qed.

Lemma index_set_index labels (df : DataFrame) :
  length labels = len df → index (set_index labels df) = labels.
Proof.
  intros Hlen. unfold index, set_index. apply fst_zip.
  rewrite length_fmap. unfold len in Hlen. lia.
Qed.

Lemma len_set_index labels (df : DataFrame) :
  length labels = len df → len (set_index labels df) = len df.
Proof.
  intros Hlen. unfold len, set_index in *.
  rewrite length_zip_with, length_fmap. lia.
Qed.

Lemma rows_set_index labels (df : DataFrame) :
  length labels = len df → (set_index labels df).*2 = df.*2.
Proof.
  intros Hlen. unfold set_index. apply snd_zip.
  rewrite length_fmap. unfold len in Hlen. lia.
Qed.

Lemma index_app (d1 d2 : DataFrame) : index (d1 ++ d2) = index d1 ++ index d2.
Proof. unfold index. apply fmap_app. Qed.

Lemma len_app (d1 d2 : DataFrame) : len (d1 ++ d2) = (len d1 + len d2)%nat.
Proof. unfold len. apply length_app. Qed.

Lemma len_index (df : DataFrame) : length (index df) = len df.
Proof. unfold index, len. apply length_fmap. Qed.

Lemma dense_nil : dense [].
Proof. reflexivity. Qed.

Lemma len_relabel n (new_data : DataFrame) : len (relabel n new_data) = len new_data.
Proof. unfold relabel. apply len_set_index. rewrite length_arange. lia. Qed.

Lemma index_relabel n (new_data : DataFrame) :
  index (relabel n new_data) = arange n (n + len new_data).
Proof. unfold relabel. apply index_set_index. rewrite length_arange. lia. Qed.

Lemma dense_app_relabel (d new_data : DataFrame) :
  dense d → dense (d ++ relabel (len d) new_data).
Proof.
  unfold dense. intros Hd.
  rewrite index_app, Hd, index_relabel, len_app, len_relabel.
  symmetry. apply arange_app; lia.
Qed.

Section DriverFacts.
Context {C : Type}.
Variable cls : GeneratorClass C.

(** [add_data] in one equation: the rows already there, then the batch
    relabelled from the row count. *)
Lemma data_add_data (new_data : DataFrame) (X : Xopt C) :
  data (add_data cls new_data X)
  = Some (rows_of (data X) ++ relabel (n_data X) new_data).
Proof.
  unfold add_data, n_data, relabel. by destruct (data X) as [d|].
Qed.

Lemma generator_add_data_eq (new_data : DataFrame) (X : Xopt C) :
  generator (add_data cls new_data X)
  = generator_add_data cls (relabel (n_data X) new_data) (generator X).
Proof.
  unfold add_data, n_data, relabel. by destruct (data X) as [d|].
Qed.

(** [add_data] touches the dataset and the generator only. *)
Lemma add_data_frame (new_data : DataFrame) (X : Xopt C) :
  vocs (add_data cls new_data X) = vocs X
  ∧ evaluator (add_data cls new_data X) = evaluator X
  ∧ strict (add_data cls new_data X) = strict X
  ∧ dump_file (add_data cls new_data X) = dump_file X
  ∧ max_evaluations (add_data cls new_data X) = max_evaluations X.
Proof. unfold add_data. by destruct (data X). Qed.

Lemma dump_file_add_data (new_data : DataFrame) (X : Xopt C) :
  dump_file (add_data cls new_data X) = dump_file X.
Proof. apply add_data_frame. Qed.

Lemma n_data_rows (X : Xopt C) : n_data X = len (rows_of (data X)).
Proof. unfold n_data. by destruct (data X). Qed.

Lemma n_data_add_data (new_data : DataFrame) (X : Xopt C) :
  n_data (add_data cls new_data X) = (n_data X + len new_data)%nat.
Proof.
  rewrite (n_data_rows (add_data _ _ _)), data_add_data. simpl.
  by rewrite len_app, len_relabel, <- n_data_rows.
Qed.

Lemma add_data_dense (new_data : DataFrame) (X : Xopt C) :
  dense (rows_of (data X)) →
  dense (rows_of (data (add_data cls new_data X))).
Proof.
  intros Hd. rewrite data_add_data. simpl.
  rewrite n_data_rows. by apply dense_app_relabel.
Qed.

Lemma add_all_cons (b : DataFrame) (batches : list DataFrame) (X : Xopt C) :
  add_all cls (b :: batches) X = add_all cls batches (add_data cls b X).
Proof. reflexivity. Qed.

Lemma sum_len_cons (b : DataFrame) (batches : list DataFrame) :
  sum_list (len <$> b :: batches) = (len b + sum_list (len <$> batches))%nat.
Proof. reflexivity. Qed.

Lemma add_all_dense (batches : list DataFrame) (X : Xopt C) :
  dense (rows_of (data X)) →
  dense (rows_of (data (add_all cls batches X)))
  ∧ n_data (add_all cls batches X) = (n_data X + sum_list (len <$> batches))%nat.
Proof.
  revert X. induction batches as [|b batches IH]; intros X Hd.
  - split; [done | cbn; lia].
  - destruct (IH (add_data cls b X)) as [Hdense Hn].
    { by apply add_data_dense. }
    rewrite add_all_cons, sum_len_cons.
    split; [done|]. rewrite Hn, n_data_add_data. lia.
Qed.

(** C2: from an empty dataset ([None] or a table without rows), any
    sequence of [add_data] calls, whatever the sizes of the batches,
    leaves the index [0, 1, ..., n-1] in ascending order, [n] being the
    number of rows added over all the calls. *)
Theorem add_data_index_from_empty (batches : list DataFrame) (X : Xopt C) :
  rows_of (data X) = [] →
  index (rows_of (data (add_all cls batches X)))
  = arange 0 (sum_list (len <$> batches))
  ∧ n_data (add_all cls batches X) = sum_list (len <$> batches).
Proof.
  intros Hempty.
  destruct (add_all_dense batches X) as [Hdense Hn].
  { rewrite Hempty. apply dense_nil. }
  assert (n_data X = 0%nat) as H0 by (by rewrite n_data_rows, Hempty).
  rewrite H0 in Hn. simpl in Hn. split; [|done].
  unfold dense in Hdense. by rewrite Hdense, <- n_data_rows, Hn.
Qed.

End DriverFacts.

(** ** [evaluate_data], stage by stage *)

Section EvaluateData.
Context {C : Type}.
Variable cls : GeneratorClass C.
Variable validate_outputs : DataFrame → bool.

(** The input does not reach the evaluator: normalisation, the schema
    or the check of the sequential generator fails. *)
Lemma evaluate_data_rejected (s : State C) input e :
  to_DataFrame input = Raise e →
  evaluate_data cls validate_outputs input s = (Raise e, s).
Proof. intros H. unfold evaluate_data, bind, lift. by rewrite H. Qed.

Lemma evaluate_data_invalid (s : State C) input df :
  to_DataFrame input = Ok df →
  validate_input_data (vocs (self s)) df = false →
  evaluate_data cls validate_outputs input s = (Raise ValidationError, s).
Proof.
  intros H1 H2. unfold evaluate_data, bind, lift, get_self, require.
  rewrite H1. simpl. by rewrite H2.
Qed.

Lemma evaluate_data_mismatch (s : State C) input df :
  to_DataFrame input = Ok df →
  validate_input_data (vocs (self s)) df = true →
  candidate_ok cls (generator (self s)) (add_constants (vocs (self s)) df) = false →
  evaluate_data cls validate_outputs input s = (Raise ValidationError, s).
Proof.
  intros H1 H2 H3. unfold evaluate_data, bind, lift, get_self, require.
  rewrite H1. simpl. rewrite H2. simpl.
  unfold candidate_ok in H3.
  destruct (sequential cls); [|done].
  destruct (is_active cls (generator (self s))); [|done].
  by rewrite H3.
Qed.

Lemma evaluate_data_accepted (s : State C) input df :
  to_DataFrame input = Ok df →
  validate_input_data (vocs (self s)) df = true →
  candidate_ok cls (generator (self s)) (add_constants (vocs (self s)) df) = true →
  evaluate_data cls validate_outputs input s
  = after_evaluator cls validate_outputs s (add_constants (vocs (self s)) df)
      (evaluator_evaluate_data (evaluator (self s))
         (add_constants (vocs (self s)) df)).
Proof.
  intros H1 H2 H3. destruct s as [X w].
  unfold evaluate_data, after_evaluator, bind, lift, get_self, require,
    call_evaluate_data, log_call, set_self, dump, ret, raise. simpl in *.
  rewrite H1. simpl. rewrite H2. simpl.
  unfold candidate_ok in H3.
  destruct (sequential cls), (is_active cls (generator X));
    rewrite ?H3; simpl;
    (destruct (evaluator_evaluate_data (evaluator X) (add_constants (vocs X) df))
       as [out|e]; simpl; [|done]);
    destruct (strict X), (validate_outputs out); simpl; try done;
    (destruct (explode_all_columns out) as [rows|e]; simpl; [|done]);
    (destruct (dump_file X) as [fname|] eqn:Hd; simpl; [|done]);
    rewrite dump_file_add_data, Hd; by destruct (writable w fname).
Qed.

End EvaluateData.

(** ** Output validation and explosion *)

Lemma elem_of_list_lengths (r : Row) (n : nat) :
  n ∈ list_lengths r ↔ ∃ k vs, r !! k = Some (CList vs) ∧ length vs = n.
Proof.
  unfold list_lengths. rewrite list_elem_of_omap. split.
  - intros [[k c] [Hin Hc]]. apply elem_of_map_to_list in Hin.
    simpl in Hc. destruct c as [v|vs]; [done|].
    exists k, vs. split; [done|]. congruence.
  - intros (k & vs & Hk & Hn). exists (k, CList vs). split.
    + by apply elem_of_map_to_list.
    + simpl. by rewrite Hn.
Qed.

Lemma forallb_eqb_true (n : nat) (ns : list nat) :
  forallb (Nat.eqb n) ns = true ↔ ∀ m, m ∈ ns → m = n.
Proof.
  rewrite forallb_forall. split.
  - intros H m Hm. apply list_elem_of_In, H in Hm.
    symmetry. by apply Nat.eqb_eq.
  - intros H m Hm. apply list_elem_of_In, H in Hm. by apply Nat.eqb_eq.
Qed.

(** A row whose list-valued cells all have length [n]. *)
Lemma explode_row_uniform (r : Z * Row) (n : nat) :
  (∀ k vs, r.2 !! k = Some (CList vs) → length vs = n) →
  explode_row r = Ok (exploded n r).
Proof.
  intros Hlen. unfold explode_row, exploded.
  destruct (list_lengths r.2) as [|m ms] eqn:Hl; [done|].
  assert (∀ x, x ∈ m :: ms → x = n) as Hall.
  { intros x Hx. rewrite <- Hl in Hx.
    apply elem_of_list_lengths in Hx as (k & vs & Hk & <-). by eapply Hlen. }
  assert (m = n) as -> by (apply Hall; left).
  assert (forallb (Nat.eqb n) ms = true) as ->; [|done].
  apply forallb_eqb_true. intros x Hx. apply Hall. by right.
Qed.


Lemma explode_row_error (r : Z * Row) e :
  explode_row r = Raise e → e = ShapeError.
Proof.
  unfold explode_row. destruct (list_lengths r.2) as [|m ms]; [done|].
  destruct (forallb (Nat.eqb m) ms); [done | congruence].
Qed.

Lemma explode_all_columns_error (out : DataFrame) e :
  explode_all_columns out = Raise e → e = ShapeError.
Proof.
  induction out as [|r out IH]; simpl; [done|].
  destruct (explode_row r) as [rows|e'] eqn:Hr.
  - destruct (explode_all_columns out); [done|]. intros [= <-]. by apply IH.
  - intros [= <-]. by eapply explode_row_error.
Qed.

Lemma explode_all_columns_uniform (out : DataFrame) (n : nat) :
  (∀ r k vs, r ∈ out → r.2 !! k = Some (CList vs) → length vs = n) →
  explode_all_columns out = Ok (out ≫= exploded n).
Proof.
  induction out as [|r out IH]; intros Hlen; simpl; [done|].
  rewrite (explode_row_uniform r n).
  - rewrite IH; [done|]. intros r' k vs Hr'. apply Hlen. by right.
  - intros k vs. apply Hlen. by left.
Qed.


(** The cells of row [j] of an exploded row. *)
Lemma pick_scalar (r : Row) (j : nat) k v :
  r !! k = Some (CScalar v) → (pick j <$> r) !! k = Some (CScalar v).
Proof. intros H. by rewrite lookup_fmap, H. Qed.

Lemma pick_list (r : Row) (j : nat) k vs x :
  r !! k = Some (CList vs) → vs !! j = Some x →
  (pick j <$> r) !! k = Some (CScalar x).
Proof. intros H Hj. rewrite lookup_fmap, H. simpl. by rewrite Hj. Qed.



(** ** Properties of [evaluate_data] *)

Lemma to_DataFrame_error input e : to_DataFrame input = Raise e → e = ValidationError.
Proof.
  destruct input as [df|records|d]; simpl; try done.
  destruct (DataFrame_of_dict d); [done|].
  unfold single_row. destruct (forallb _ _); [done | congruence].
Qed.

Section EvaluateDataProperties.
Context {C : Type}.
Variable cls : GeneratorClass C.
Variable validate_outputs : DataFrame → bool.

(** C1, as the code has it: [validate_outputs] is given the result
    table alone, not the problem definition.  In strict mode, when it
    refuses the table returned by the evaluator, [evaluate_data] fails
    with [OutputValidationError]; the evaluator has been called, and the
    driver object comes out as it went in: same dataset, same number of
    rows, nothing of the batch stored. *)
Theorem strict_rejection_keeps_dataset (s : State C) input df out :
  strict (self s) = true →
  to_DataFrame input = Ok df →
  validate_input_data (vocs (self s)) df = true →
  candidate_ok cls (generator (self s)) (add_constants (vocs (self s)) df) = true →
  evaluator_evaluate_data (evaluator (self s)) (add_constants (vocs (self s)) df)
    = Ok out →
  validate_outputs out = false →
  ∃ s', evaluate_data cls validate_outputs input s = (Raise OutputValidationError, s')
        ∧ calls (world s')
          = calls (world s) ++ [CallEvaluateData (add_constants (vocs (self s)) df)]
        ∧ self s' = self s
        ∧ data (self s') = data (self s)
        ∧ n_data (self s') = n_data (self s).
Proof.
  intros Hstrict Hdf Hvalid Hcand Hout Hno.
  rewrite (evaluate_data_accepted cls validate_outputs s input df) by done.
  rewrite Hout. unfold after_evaluator.
  rewrite Hstrict, Hno. simpl.
  eexists. split; [done|]. by simpl.
Qed.

(** C6: with a sequential generator that holds an outstanding
    candidate, an input that the generator does not accept as that
    candidate makes [evaluate_data] fail with [ValidationError] in the
    state of the call: the evaluator has received nothing and the
    dataset is the same.  An input that is accepted goes on to the
    evaluator, and the rows that come back are appended. *)
Theorem sequential_candidate_gate (s : State C) input :
  sequential cls = true →
  is_active cls (generator (self s)) = true →
  ((∀ df, to_DataFrame input = Ok df →
          validate_point cls (generator (self s))
            (add_constants (vocs (self s)) df) = false) →
   evaluate_data cls validate_outputs input s = (Raise ValidationError, s))
  ∧ (∀ df, to_DataFrame input = Ok df →
           validate_input_data (vocs (self s)) df = true →
           validate_point cls (generator (self s))
             (add_constants (vocs (self s)) df) = true →
     let tbl := add_constants (vocs (self s)) df in
     evaluate_data cls validate_outputs input s
     = after_evaluator cls validate_outputs s tbl
         (evaluator_evaluate_data (evaluator (self s)) tbl)
     ∧ ∀ out rows,
         evaluator_evaluate_data (evaluator (self s)) tbl = Ok out →
         (strict (self s) = true → validate_outputs out = true) →
         explode_all_columns out = Ok rows →
         ∃ res s', evaluate_data cls validate_outputs input s = (res, s')
           ∧ (res = Ok rows ∨ res = Raise SerializationError)
           ∧ calls (world s') = calls (world s) ++ [CallEvaluateData tbl]
           ∧ data (self s')
             = Some (rows_of (data (self s)) ++ relabel (n_data (self s)) rows)).
Proof.
  intros Hseq Hact. split.
  - intros Hno. destruct (to_DataFrame input) as [df|e] eqn:Hdf.
    + destruct (validate_input_data (vocs (self s)) df) eqn:Hv.
      * apply (evaluate_data_mismatch cls validate_outputs s input df); [done..|].
        unfold candidate_ok. rewrite Hseq, Hact. by apply Hno.
      * by apply (evaluate_data_invalid cls validate_outputs s input df).
    + rewrite (to_DataFrame_error _ _ Hdf) in Hdf.
      by apply evaluate_data_rejected.
  - intros df Hdf Hv Hyes tbl.
    assert (evaluate_data cls validate_outputs input s
            = after_evaluator cls validate_outputs s tbl
                (evaluator_evaluate_data (evaluator (self s)) tbl)) as Heq.
    { apply evaluate_data_accepted; [done..|].
      unfold candidate_ok. by rewrite Hseq, Hact. }
    split; [done|]. intros out rows Hout Hstrict Hrows.
    rewrite Heq, Hout. unfold after_evaluator.
    assert (strict (self s) && negb (validate_outputs out) = false)
      as ->.
    { destruct (strict (self s)); [|done]. by rewrite Hstrict. }
    rewrite Hrows.
    destruct (dump_file (self s)) as [fname|].
    + destruct (writable (asked tbl (world s)) fname);
        eexists _, _; (split; [done|]); simpl;
        rewrite data_add_data; eauto.
    + eexists _, _. split; [done|]. simpl. rewrite data_add_data. eauto.
Qed.

End EvaluateDataProperties.

Section Explosion.
Context {C : Type}.
Variable cls : GeneratorClass C.
Variable validate_outputs : DataFrame → bool.



End Explosion.

(** ** [step] and [run] *)

Lemma len_set_column name value (df : DataFrame) : len (set_column name value df) = len df.
Proof. unfold len, set_column. apply length_fmap. Qed.

Lemma len_add_constants (v : VOCS) (df : DataFrame) : len (add_constants v df) = len df.
Proof.
  unfold add_constants. revert df.
  induction (constants v) as [|kv kvs IH]; intros df; simpl; [done|].
  by rewrite IH, len_set_column.
Qed.

(** Without list-valued cell the explosion changes nothing. *)
Lemma explode_all_columns_scalar (out : DataFrame) :
  (∀ r k vs, r ∈ out → r.2 !! k ≠ Some (CList vs)) →
  explode_all_columns out = Ok out.
Proof.
  intros Hsc. rewrite (explode_all_columns_uniform out 0).
  - f_equal. induction out as [|r out IH]; [done|].
    change ((r :: out) ≫= exploded 0) with (exploded 0 r ++ (out ≫= exploded 0)).
    rewrite IH by (intros r' k vs Hr'; apply Hsc; by right).
    unfold exploded. destruct (list_lengths r.2) as [|m ms] eqn:Hl; [done|].
    assert (m ∈ list_lengths r.2) as Hm by (rewrite Hl; left).
    apply elem_of_list_lengths in Hm as (k & vs & Hk & _).
    exfalso. by apply (Hsc r k vs); [left|].
  - intros r k vs Hr Hk. exfalso. by apply (Hsc r k vs).
Qed.

Section StepRun.
Context {C : Type}.
Variable cls : GeneratorClass C.
Variable validate_outputs : DataFrame → bool.

(** What a call of [evaluate_data] leaves of the driver object: the
    object of the call when the call fails before [add_data], and that
    object after [add_data] otherwise; then the call returns the rows
    added, or fails in [dump]. *)
Lemma evaluate_data_self (s s' : State C) input res :
  evaluate_data cls validate_outputs input s = (res, s') →
  (self s' = self s ∧ ∀ rows, res ≠ Ok rows)
  ∨ ∃ df out rows,
      to_DataFrame input = Ok df
      ∧ evaluator_evaluate_data (evaluator (self s)) (add_constants (vocs (self s)) df)
        = Ok out
      ∧ explode_all_columns out = Ok rows
      ∧ self s' = add_data cls rows (self s)
      ∧ (res = Ok rows
         ∨ res = Raise SerializationError ∧ is_Some (dump_file (self s))).
Proof.
  intros Hrun.
  destruct (to_DataFrame input) as [df|e] eqn:Hdf.
  2:{ rewrite (evaluate_data_rejected cls validate_outputs s input e Hdf) in Hrun.
      injection Hrun as <- <-. by left. }
  destruct (validate_input_data (vocs (self s)) df) eqn:Hv.
  2:{ rewrite (evaluate_data_invalid cls validate_outputs s input df Hdf Hv) in Hrun.
      injection Hrun as <- <-. by left. }
  destruct (candidate_ok cls (generator (self s)) (add_constants (vocs (self s)) df))
    eqn:Hc.
  2:{ rewrite (evaluate_data_mismatch cls validate_outputs s input df Hdf Hv Hc) in Hrun.
      injection Hrun as <- <-. by left. }
  rewrite (evaluate_data_accepted cls validate_outputs s input df Hdf Hv Hc) in Hrun.
  unfold after_evaluator in Hrun.
  destruct (evaluator_evaluate_data _ _) as [out|e] eqn:Hout.
  2:{ injection Hrun as <- <-. by left. }
  destruct (strict (self s) && negb (validate_outputs out)).
  { injection Hrun as <- <-. by left. }
  destruct (explode_all_columns out) as [rows|e] eqn:Hrows.
  2:{ injection Hrun as <- <-. by left. }
  right. exists df, out, rows.
  assert (self s' = add_data cls rows (self s)
          ∧ (res = Ok rows
             ∨ res = Raise SerializationError ∧ is_Some (dump_file (self s))))
    as [Hself Hres]; [|done].
  destruct (dump_file (self s)) as [fname|].
  - destruct (writable _ fname); injection Hrun as <- <-; eauto.
  - injection Hrun as <- <-. eauto.
Qed.

(** A batch is stored whole or not at all: when [evaluate_data] fails
    anywhere before [dump], the driver object is the one of the call. *)
Lemma evaluate_data_atomic (s s' : State C) input e :
  evaluate_data cls validate_outputs input s = (Raise e, s') →
  dump_file (self s) = None →
  self s' = self s.
Proof.
  intros Hrun Hnodump.
  apply evaluate_data_self in Hrun as [[? _]|(df & out & rows & _ & _ & _ & _ & Hres)];
    [done|].
  destruct Hres as [?|[_ [fname Hsome]]]; [done | congruence].
Qed.

Lemma evaluate_data_settings (s s' : State C) input res :
  evaluate_data cls validate_outputs input s = (res, s') → same_settings (self s) (self s').
Proof.
  intros Hrun. apply evaluate_data_self in Hrun
    as [[-> _]|(df & out & rows & _ & _ & _ & -> & _)].
  - by repeat split.
  - apply add_data_frame.
Qed.

(** [step] in one equation. *)
Lemma step_eq (s : State C) :
  step cls validate_outputs s
  = let '(r, g) := generate cls (generator (self s))
                     (max_workers (evaluator (self s))) in
    let s1 := Build_State (with_generator g (self s)) (world s) in
    match r with
    | Raise e => (Raise e, s1)
    | Ok None => (Ok tt, s1)
    | Ok (Some new_samples) =>
        match evaluate_data cls validate_outputs new_samples s1 with
        | (Ok _, s') => (Ok tt, s')
        | (Raise e, s') => (Raise e, s')
        end
    end.
Proof.
  unfold step, bind, get_self, call_generate, ret. simpl.
  by destruct (generate cls _ _) as [[[inp|]|e] g].
Qed.

Lemma step_settings (s s' : State C) res :
  step cls validate_outputs s = (res, s') → same_settings (self s) (self s').
Proof.
  rewrite step_eq.
  destruct (generate cls _ _) as [[[inp|]|e] g]; simpl.
  - destruct (evaluate_data cls validate_outputs inp _) as [[rows|e] s1] eqn:Hev;
      intros [= <- <-]; by apply evaluate_data_settings in Hev.
  - intros [= <- <-]. by repeat split.
  - intros [= <- <-]. by repeat split.
Qed.

(** A step that returns adds no row, or at most [max_workers] rows. *)
Lemma step_growth (s s' : State C) :
  bounded_batches cls →
  row_per_candidate (evaluator (self s)) →
  step cls validate_outputs s = (Ok tt, s') →
  n_data (self s') = n_data (self s)
  ∨ Z.of_nat (n_data (self s'))
    ≤ Z.of_nat (n_data (self s)) + max_workers (evaluator (self s)).
Proof.
  intros Hgen Hev. rewrite step_eq.
  destruct (generate cls _ _) as [[[inp|]|e] g] eqn:Hg; simpl; [| |done].
  - destruct (evaluate_data cls validate_outputs inp _) as [[rows|e] s1] eqn:Hrun; [|done].
    intros [= <-].
    apply evaluate_data_self in Hrun
      as [[_ Hno]|(df & out & rows' & Hdf & Hout & Hrows & -> & _)].
    { by destruct (Hno rows). }
    simpl in Hout. destruct (Hev _ _ Hout) as [Hlen Hsc].
    rewrite (explode_all_columns_scalar out Hsc) in Hrows.
    injection Hrows as <-.
    pose proof (Hgen _ _ _ _ _ Hg Hdf) as Hn.
    rewrite len_add_constants in Hlen.
    right. rewrite n_data_add_data.
    simpl. change (n_data (with_generator g (self s))) with (n_data (self s)).
    lia.
  - intros [= <-]. by left.
Qed.

(** Once the count has reached the cap, the loop returns at once. *)
Lemma run_loop_stop (s : State C) fuel cap :
  max_evaluations (self s) = Some cap →
  cap ≤ Z.of_nat (n_data (self s)) →
  run_loop cls validate_outputs (S fuel) s = Some (Ok tt, s).
Proof. intros Hcap Hn. simpl. rewrite Hcap. by rewrite bool_decide_eq_true_2. Qed.

(** Below the cap, the loop takes a step and goes round again. *)
Lemma run_loop_step (s : State C) fuel cap :
  max_evaluations (self s) = Some cap →
  Z.of_nat (n_data (self s)) < cap →
  run_loop cls validate_outputs (S fuel) s
  = match step cls validate_outputs s with
    | (Ok _, s1) => run_loop cls validate_outputs fuel s1
    | (Raise e, s1) => Some (Raise e, s1)
    end.
Proof.
  intros Hcap Hn. simpl. rewrite Hcap.
  by rewrite bool_decide_eq_false_2 by lia.
Qed.

(** When the loop returns, the count has reached the cap, whatever the
    generator and the evaluator do; from a count at or above the cap it
    returns in the state it was entered in. *)
Lemma run_loop_reaches_cap (fuel : nat) (s s' : State C) cap :
  max_evaluations (self s) = Some cap →
  run_loop cls validate_outputs fuel s = Some (Ok tt, s') →
  cap ≤ Z.of_nat (n_data (self s'))
  ∧ (cap ≤ Z.of_nat (n_data (self s)) → s' = s).
Proof.
  revert s. induction fuel as [|fuel IH]; intros s Hcap Hrun; [done|].
  destruct (decide (cap ≤ Z.of_nat (n_data (self s)))) as [Hge|Hlt].
  - rewrite (run_loop_stop s fuel cap Hcap Hge) in Hrun.
    injection Hrun as <-. by split.
  - rewrite (run_loop_step s fuel cap Hcap) in Hrun by lia.
    destruct (step cls validate_outputs s) as [[[]|e] s1] eqn:Hstep; [|done].
    destruct (step_settings s s1 _ Hstep) as (_ & _ & _ & _ & Hcap1).
    destruct (IH s1) as [Hfin _]; [congruence | done |].
    split; [done | lia].
Qed.

Lemma run_loop_bound (fuel : nat) (s s' : State C) cap :
  bounded_batches cls →
  row_per_candidate (evaluator (self s)) →
  max_evaluations (self s) = Some cap →
  run_loop cls validate_outputs fuel s = Some (Ok tt, s') →
  Z.of_nat (n_data (self s)) < cap →
  Z.of_nat (n_data (self s')) ≤ cap + (max_workers (evaluator (self s)) - 1).
Proof.
  intros Hgen. revert s.
  induction fuel as [|fuel IH]; intros s Hev Hcap Hrun Hlt; [done|].
  rewrite (run_loop_step s fuel cap Hcap Hlt) in Hrun.
  destruct (step cls validate_outputs s) as [[[]|e] s1] eqn:Hstep; [|done].
  destruct (step_settings s s1 _ Hstep) as (_ & Hev1 & _ & _ & Hcap1).
  rewrite Hcap in Hcap1.
  destruct (decide (cap ≤ Z.of_nat (n_data (self s1)))) as [Hge1|Hlt1].
  - destruct (run_loop_reaches_cap fuel s1 s' cap Hcap1 Hrun) as [_ Hstop].
    rewrite (Hstop Hge1).
    destruct (step_growth s s1 Hgen Hev Hstep) as [Heq|Hle]; lia.
  - rewrite <- Hev1. apply IH; [by rewrite Hev1 | done | done | lia].
Qed.

(** C3, as the code has it: without a cap [run] fails with
    [ConfigurationError]; with a cap, it takes a step as long as the row
    count is below the cap, and when it returns the row count is at
    least the cap, whatever the generator and the evaluator are.  A run
    that starts at or above the cap returns at once, in the state and
    with the row count it started with.  A run that starts below the
    cap ends with at most cap + (max_workers - 1) rows, provided that
    the generator proposes at most [max_workers] candidates per call
    and that the evaluator answers with at most one row per candidate
    and no list-valued cell. *)
Theorem run_stops_within_overshoot (s : State C) :
  (max_evaluations (self s) = None →
   ∀ fuel, run cls validate_outputs fuel s = Some (Raise ConfigurationError, s))
  ∧ (∀ cap fuel,
       max_evaluations (self s) = Some cap →
       (cap ≤ Z.of_nat (n_data (self s)) →
        run cls validate_outputs (S fuel) s = Some (Ok tt, s))
       ∧ (Z.of_nat (n_data (self s)) < cap →
          run cls validate_outputs (S fuel) s
          = match step cls validate_outputs s with
            | (Ok _, s1) => run cls validate_outputs fuel s1
            | (Raise e, s1) => Some (Raise e, s1)
            end))
  ∧ (∀ cap fuel s',
       max_evaluations (self s) = Some cap →
       run cls validate_outputs fuel s = Some (Ok tt, s') →
       cap ≤ Z.of_nat (n_data (self s'))
       ∧ (cap ≤ Z.of_nat (n_data (self s)) → s' = s)
       ∧ (bounded_batches cls →
          row_per_candidate (evaluator (self s)) →
          Z.of_nat (n_data (self s)) < cap →
          Z.of_nat (n_data (self s'))
          ≤ cap + (max_workers (evaluator (self s)) - 1))).
Proof.
  split; [|split].
  - intros Hnone fuel. unfold run. by rewrite Hnone.
  - intros cap fuel Hcap. split.
    + intros Hge. unfold run. rewrite Hcap. by apply (run_loop_stop s fuel cap).
    + intros Hlt. unfold run. rewrite Hcap.
      rewrite (run_loop_step s fuel cap Hcap Hlt).
      destruct (step cls validate_outputs s) as [[[]|e] s1] eqn:Hstep; [|done].
      destruct (step_settings s s1 _ Hstep) as (_ & _ & _ & _ & Hcap1).
      by rewrite Hcap1, Hcap.
  - intros cap fuel s' Hcap Hrun. unfold run in Hrun. rewrite Hcap in Hrun.
    destruct (run_loop_reaches_cap fuel s s' cap Hcap Hrun) as [Hfin Hstop].
    split; [done|]. split; [done|]. intros Hgen Hev Hlt.
    by apply (run_loop_bound fuel s s' cap).
Qed.

(** A generator that declines: the step changes no row. *)
Lemma step_declined (s : State C) :
  declines cls →
  ∃ s', step cls validate_outputs s = (Ok tt, s')
        ∧ data (self s') = data (self s)
        ∧ max_evaluations (self s') = max_evaluations (self s)
        ∧ world s' = world s.
Proof.
  intros Hdec. rewrite step_eq.
  pose proof (Hdec (generator (self s)) (max_workers (evaluator (self s)))) as Hg.
  destruct (generate cls _ _) as [r g]. simpl in Hg. subst r.
  by eexists.
Qed.

Lemma run_loop_declined (fuel : nat) (s : State C) cap :
  declines cls →
  max_evaluations (self s) = Some cap →
  Z.of_nat (n_data (self s)) < cap →
  run_loop cls validate_outputs fuel s = None.
Proof.
  intros Hdec. revert s. induction fuel as [|fuel IH]; intros s Hcap Hlt; [done|].
  rewrite (run_loop_step s fuel cap Hcap Hlt).
  destruct (step_declined s Hdec) as (s' & -> & Hdata & Hcap' & _).
  apply IH; [congruence|]. unfold n_data in *. by rewrite Hdata.
Qed.

(** C10: with a cap, a row count below it and a generator that
    answers [None] to every [generate], each [step] returns and leaves
    the dataset as it was, and [run] never returns: whatever the
    number of trips allowed round the loop, they do not suffice. *)
Theorem run_never_returns_when_generator_declines (s : State C) cap :
  declines cls →
  max_evaluations (self s) = Some cap →
  Z.of_nat (n_data (self s)) < cap →
  (∀ s0 : State C, ∃ s1, step cls validate_outputs s0 = (Ok tt, s1)
                         ∧ data (self s1) = data (self s0))
  ∧ ∀ fuel, run cls validate_outputs fuel s = None.
Proof.
  intros Hdec Hcap Hlt. split.
  - intros s0. destruct (step_declined s0 Hdec) as (s1 & ? & ? & _). eauto.
  - intros fuel. unfold run. rewrite Hcap. by apply (run_loop_declined fuel s cap).
Qed.

End StepRun.

(** ** [evaluate] *)

Section Evaluate.
Context {C : Type}.
Variable cls : GeneratorClass C.

(** [evaluate] in one equation: the copy with the constants is
    validated, the record of the caller goes to the evaluator, and the
    driver object is not touched. *)
Lemma evaluate_eq (s : State C) (input_dict : Row) :
  evaluate input_dict s
  = match single_row (with_constants (vocs (self s)) input_dict) with
    | Raise e => (Raise e, s)
    | Ok table =>
        if validate_input_data (vocs (self s)) table
        then (evaluator_evaluate (evaluator (self s)) input_dict,
              Build_State (self s)
                {| calls := calls (world s) ++ [CallEvaluate input_dict];
                   writable := writable (world s);
                   files := files (world s) |})
        else (Raise ValidationError, s)
    end.
Proof.
  unfold evaluate, call_evaluate, bind, get_self, require, log_call, lift.
  simpl. destruct (single_row _) as [table|e]; [|done].
  by destruct (validate_input_data _ _).
Qed.

(** Whatever the record and the outcome, [evaluate] leaves the driver
    object, and so the dataset, as it was. *)
Lemma evaluate_keeps_self (s s' : State C) (input_dict : Row) res :
  evaluate input_dict s = (res, s') → self s' = self s.
Proof.
  rewrite evaluate_eq. destruct (single_row _) as [table|e].
  - destruct (validate_input_data _ _); by intros [= <- <-].
  - by intros [= <- <-].
Qed.

End Evaluate.

(** ** [add_data], [reset_data] and [remove_data] *)

Lemma foldr_max_seq (k a : nat) (i : Z) :
  i ≤ Z.of_nat a →
  foldr Z.max i (Z.of_nat <$> seq a (S k)) = Z.of_nat a + Z.of_nat k.
Proof.
  revert a. induction k as [|k IH]; intros a Hi.
  - simpl. lia.
  - change (Z.of_nat <$> seq a (S (S k)))
      with (Z.of_nat a :: (Z.of_nat <$> seq (S a) (S k))).
    change (foldr Z.max i (Z.of_nat a :: (Z.of_nat <$> seq (S a) (S k))))
      with (Z.max (Z.of_nat a) (foldr Z.max i (Z.of_nat <$> seq (S a) (S k)))).
    rewrite IH by lia. lia.
Qed.

Lemma arange_shift (n m : nat) :
  arange n (n + m) = (λ j : nat, Z.of_nat n + Z.of_nat j) <$> seq 0 m.
Proof.
  unfold arange. replace (n + m - n)%nat with m by lia.
  replace (seq n m) with (seq (n + 0) m) by (f_equal; lia).
  rewrite <- (fmap_add_seq n 0 m), <- list_fmap_compose.
  apply list_fmap_ext. intros _ j _. simpl. lia.
Qed.

(** On a dense index, the row count is the largest label plus one. *)
Lemma labels_after_max_dense (df : DataFrame) (m : nat) :
  dense df → labels_after_max df m = arange (len df) (len df + m).
Proof.
  unfold dense, labels_after_max. intros ->. rewrite arange_shift.
  destruct (len df) as [|n]; [done|].
  unfold arange. rewrite Nat.sub_0_r.
  change (Z.of_nat <$> seq 0 (S n)) with (0 :: (Z.of_nat <$> seq 1 n)).
  apply list_fmap_ext. intros _ j _. simpl.
  destruct n as [|n]; [simpl; lia|].
  rewrite (foldr_max_seq n 1 0) by lia. lia.
Qed.

Lemma dense_relabel_0 (df : DataFrame) : dense (relabel 0 df).
Proof. unfold dense. by rewrite index_relabel, len_relabel. Qed.

Section Mutations.
Context {C : Type}.
Variable cls : GeneratorClass C.

(** C8, as the code has it: [add_data] labels the rows of the batch
    with consecutive integers that start at the number of rows of the
    dataset (0 when there is none), appends them, and hands the
    relabelled batch to [add_data] of the generator.  The first label
    is the largest label plus one when the index of the dataset is
    dense. *)
Theorem add_data_labels_from_row_count (new_data : DataFrame) (X : Xopt C) :
  let n := n_data X in
  let batch := relabel n new_data in
  data (add_data cls new_data X) = Some (rows_of (data X) ++ batch)
  ∧ index batch = (λ j : nat, Z.of_nat n + Z.of_nat j) <$> seq 0 (len new_data)
  ∧ batch.*2 = new_data.*2
  ∧ generator (add_data cls new_data X)
    = generator_add_data cls batch (generator X)
  ∧ (dense (rows_of (data X)) →
     index batch = labels_after_max (rows_of (data X)) (len new_data)).
Proof.
  intros n batch. subst n batch. split; [apply data_add_data|].
  split; [by rewrite index_relabel, arange_shift|].
  split.
  { unfold relabel. apply rows_set_index. rewrite length_arange. lia. }
  split; [apply generator_add_data_eq|].
  intros Hd. rewrite index_relabel, labels_after_max_dense by done.
  by rewrite <- n_data_rows.
Qed.

(** [remove_data] in one equation. *)
Lemma remove_data_eq (s : State C) (d : DataFrame) indices (inplace : bool) :
  data (self s) = Some d →
  (∀ i, i ∈ indices → i ∈ index d) →
  let new_data := relabel 0 (filter (λ r : Z * Row, r.1 ∉ indices) d) in
  remove_data indices inplace s
  = if inplace
    then (Ok None,
          Build_State
            (with_generator (assign_data (Some new_data) (generator (self s)))
               (with_data (Some new_data) (self s)))
            (world s))
    else (Ok (Some new_data), s).
Proof.
  intros Hd Hin new_data. subst new_data.
  unfold remove_data, bind, get_self, lift, drop_labels, set_self, ret, relabel.
  simpl. rewrite Hd. simpl.
  assert (forallb (λ i : Z, bool_decide (i ∈ index d)) indices = true) as ->.
  { apply forallb_forall. intros i Hi. apply bool_decide_eq_true.
    by apply Hin, list_elem_of_In. }
  by destruct inplace.
Qed.

(** C9: with a generator whose [add_data] appends, the copy of the
    generator matches the dataset row for row after [add_data] if it
    did before, after [reset_data], and after [remove_data] in place,
    which leaves the rows kept under the labels 0..m-1; [remove_data]
    not in place returns the relabelled rows and leaves the state as
    it was. *)
Theorem mirror_follows_dataset :
  accumulative cls →
  (∀ (X : Xopt C) new_data, mirrored X → mirrored (add_data cls new_data X))
  ∧ (∀ X : Xopt C,
       mirrored (reset_data X) ∧ data (reset_data X) = Some []
       ∧ gen_data (generator (reset_data X)) = Some [])
  ∧ (∀ (s : State C) d indices,
       data (self s) = Some d →
       (∀ i, i ∈ indices → i ∈ index d) →
       let kept := filter (λ r : Z * Row, r.1 ∉ indices) d in
       (∃ s', remove_data indices true s = (Ok None, s')
              ∧ data (self s') = Some (relabel 0 kept)
              ∧ gen_data (generator (self s')) = Some (relabel 0 kept)
              ∧ mirrored (self s')
              ∧ index (relabel 0 kept) = arange 0 (len kept)
              ∧ (relabel 0 kept).*2 = kept.*2)
       ∧ remove_data indices false s = (Ok (Some (relabel 0 kept)), s)).
Proof.
  intros Hacc. split; [|split].
  - intros X new_data Hm. unfold mirrored in *.
    rewrite data_add_data, generator_add_data_eq, Hacc, Hm. done.
  - intros X. by repeat split.
  - intros s d indices Hd Hin kept. split.
    + rewrite (remove_data_eq s d indices true Hd Hin).
      eexists. split; [done|]. simpl. repeat split.
      * by rewrite index_relabel.
      * unfold relabel. apply rows_set_index. rewrite length_arange. lia.
    + by rewrite (remove_data_eq s d indices false Hd Hin).
Qed.


End Mutations.

(** ** The generator block of the document *)

(** The name put on the block by [json] is the name that
    [validate_model] pops, and what is left is the block, when the
    block has no field [name] of its own. *)
Lemma tag_generator_pop_name (registered : string) (block : gmap string Scalar) :
  block !! "name" = None →
  pop_name (tag_generator registered block) = Ok (SText registered, block).
Proof.
  intros Hfree. unfold pop_name, tag_generator.
  rewrite lookup_union_r, lookup_singleton_eq by done.
  f_equal. f_equal. rewrite delete_union, delete_singleton_eq.
  rewrite (right_id_L ∅ (∪)). by apply delete_id.
Qed.

(** A field [name] of the block hides the registered name. *)
Lemma tag_generator_hidden (registered : string) (block : gmap string Scalar) v :
  block !! "name" = Some v →
  pop_name (tag_generator registered block) = Ok (v, delete "name" block).
Proof.
  intros Hown. unfold pop_name, tag_generator.
  rewrite (lookup_union_Some_l _ _ _ v) by done.
  f_equal. f_equal. rewrite delete_union, delete_singleton_eq.
  by rewrite (right_id_L ∅ (∪)).
Qed.

(** ** The statements on concrete drivers *)


Lemma accumulative_constant_generator x : accumulative (constant_generator x).
Proof. intros new_data g. reflexivity. Qed.

Lemma bounded_constant_generator x : bounded_batches (constant_generator x).
Proof.
  intros g n new_samples g' df Hg Hdf. simpl in Hg.
  destruct (bool_decide (0 < n)) eqn:Hn; [|done].
  apply bool_decide_eq_true in Hn.
  injection Hg as <- <-. simpl in Hdf. injection Hdf as <-.
  unfold len. rewrite length_zip_with, length_arange, length_replicate. lia.
Qed.

Lemma scoring_evaluator_row_per_candidate w : row_per_candidate (scoring_evaluator w).
Proof.
  intros tbl out Hout. simpl in Hout. injection Hout as <-. split.
  - unfold len. by rewrite length_fmap.
  - intros r k vs Hr Hk. apply list_elem_of_fmap in Hr as (r0 & -> & _).
    simpl in Hk. apply lookup_singleton_Some in Hk as [_ Hk]. discriminate.
Qed.

(** C1 on a strict driver, with a check that wants a number under [f]
    and an evaluator that returns the table it is given: the call fails
    with [OutputValidationError] and the driver is as before. *)
Lemma strict_rejection_keeps_dataset_witness :
  ∃ s', evaluate_data (constant_generator 1) numeric_f (FromDict (point 1)) strict_state
        = (Raise OutputValidationError, s')
        ∧ calls (world s')
          = calls (world strict_state)
            ++ [CallEvaluateData (add_constants (vocs (self strict_state)) [(0, point 1)])]
        ∧ self s' = self strict_state
        ∧ data (self s') = data (self strict_state)
        ∧ n_data (self s') = n_data (self strict_state).
Proof.
  apply (strict_rejection_keeps_dataset (constant_generator 1) numeric_f strict_state
           (FromDict (point 1)) [(0, point 1)] [(0, point 1)]).
  - reflexivity.
  - reflexivity.
  - reflexivity.
  - reflexivity.
  - reflexivity.
  - reflexivity.
Defined.

(** C1 as stated fails, whatever [validate_outputs] does with the table:
    a test of the table alone that lets a single table with a row pass
    cannot refuse every table that lacks a declared objective.  Take a
    table that passes and a strict driver whose problem declares an
    objective that a row of this table does not have, and whose
    evaluator answers with this table: the row is stored. *)
Lemma strict_rejection_counterexample :
  ¬ ∃ validate_outputs : DataFrame → bool,
      (∃ (out : DataFrame) (r : Z * Row), r ∈ out ∧ validate_outputs out = true)
      ∧ ∀ (s : State unit) input df out (r : Z * Row) (o : string),
          strict (self s) = true →
          to_DataFrame input = Ok df →
          validate_input_data (vocs (self s)) df = true →
          candidate_ok (constant_generator 1) (generator (self s))
            (add_constants (vocs (self s)) df) = true →
          evaluator_evaluate_data (evaluator (self s))
            (add_constants (vocs (self s)) df) = Ok out →
          r ∈ out → o ∈ declared_outputs (vocs (self s)) →
          is_numeric (r.2 !! o) = false →
          ∃ s', evaluate_data (constant_generator 1) validate_outputs input s
                = (Raise OutputValidationError, s')
                ∧ n_data (self s') = n_data (self s).
Proof.
  intros (validate_outputs & (out & r & Hr & Hpass) & Hclaim).
  pose (o := fresh (dom r.2)).
  assert (r.2 !! o = None) as Hmissing.
  { apply not_elem_of_dom. apply is_fresh. }
  pose (s := start (new_xopt (vocs_declaring o) (blank tt) (fixed_evaluator out)
                      None None)).
  destruct (Hclaim s (FromDataFrame []) [] out r o) as (s' & Hrun & _);
    try reflexivity; try done.
  { apply list_elem_of_here. }
  { by rewrite Hmissing. }
  rewrite (evaluate_data_accepted (constant_generator 1) validate_outputs s
             (FromDataFrame []) []) in Hrun by reflexivity.
  unfold after_evaluator in Hrun. simpl in Hrun.
  rewrite Hpass in Hrun. simpl in Hrun.
  destruct (explode_all_columns out) as [rows|e] eqn:Hrows; [done|].
  apply explode_all_columns_error in Hrows. congruence.
Qed.

(** C2 on two batches of three and two rows. *)
Lemma add_data_index_from_empty_witness :
  index (rows_of (data (add_all (constant_generator 1) [three_rows; sparse_rows]
                          (self capped_state))))
  = arange 0 (sum_list (len <$> [three_rows; sparse_rows]))
  ∧ n_data (add_all (constant_generator 1) [three_rows; sparse_rows]
              (self capped_state))
    = sum_list (len <$> [three_rows; sparse_rows]).
Proof.
  apply (add_data_index_from_empty (constant_generator 1)
           [three_rows; sparse_rows] (self capped_state)).
  reflexivity.
Defined.

(** C3 as stated fails: a driver built with three rows and a cap of 1
    returns from [run] at once with three rows, above 1 + (1 - 1); and a
    driver with one worker whose evaluator returns a list of three
    numbers reaches three rows in one step. *)
Lemma run_overshoot_counterexample :
  (run (constant_generator 1) numeric_f 1 over_cap_state = Some (Ok tt, over_cap_state)
   ∧ max_evaluations (self over_cap_state) = Some 1
   ∧ max_workers (evaluator (self over_cap_state)) = 1
   ∧ Z.of_nat (n_data (self over_cap_state)) = 3
   ∧ ¬ (Z.of_nat (n_data (self over_cap_state)) ≤ 1 + (1 - 1)))
  ∧ (run (constant_generator 1) numeric_f 2 listing_state = Some (Ok tt, listing_state_end)
     ∧ max_evaluations (self listing_state) = Some 1
     ∧ max_workers (evaluator (self listing_state)) = 1
     ∧ Z.of_nat (n_data (self listing_state)) = 0
     ∧ Z.of_nat (n_data (self listing_state_end)) = 3
     ∧ ¬ (Z.of_nat (n_data (self listing_state_end)) ≤ 1 + (1 - 1))).
Proof.
  split.
  - repeat split; try reflexivity. vm_compute. congruence.
  - repeat split; try reflexivity. vm_compute. congruence.
Qed.

(** C3 with a cap of 5 and 2 workers: [run] returns with 6 rows. *)
Lemma run_stops_within_overshoot_witness :
  run (constant_generator 1) numeric_f 4 capped_state = Some (Ok tt, capped_state_end)
  ∧ 5 ≤ Z.of_nat (n_data (self capped_state_end))
  ∧ Z.of_nat (n_data (self capped_state_end)) ≤ 5 + (2 - 1).
Proof.
  assert (run (constant_generator 1) numeric_f 4 capped_state = Some (Ok tt, capped_state_end))
    as Hrun by (vm_compute; reflexivity).
  split; [exact Hrun|].
  destruct (run_stops_within_overshoot (constant_generator 1) numeric_f capped_state)
    as (_ & _ & Hbound).
  destruct (Hbound 5 4%nat capped_state_end eq_refl Hrun) as (Hge & _ & Hle).
  split; [exact Hge|].
  apply Hle.
  - apply bounded_constant_generator.
  - apply scoring_evaluator_row_per_candidate.
  - reflexivity.
Defined.

(** C4 on a problem with the constant [c = 7]: [evaluate] of the record
    [{x: 1}] validates the record with the constant merged in, but the
    evaluator receives the record as the caller gave it, without [c];
    the result is the answer of the evaluator and the driver object is
    untouched. *)
Theorem evaluate_passes_record_without_constants :
  let s := constant_state in
  let merged := with_constants (vocs (self s)) (point 1) in
  merged = <["c" := num 7]> (point 1)
  ∧ merged !! "c" = Some (num 7)
  ∧ single_row merged = Ok [(0, merged)]
  ∧ validate_input_data (vocs (self s)) [(0, merged)] = true
  ∧ ∃ s', evaluate (point 1) s = (Ok (<["f" := num 0]> (point 1)), s')
          ∧ calls (world s') = [CallEvaluate (point 1)]
          ∧ point 1 !! "c" = None
          ∧ calls (world s') ≠ [CallEvaluate merged]
          ∧ self s' = self s.
Proof.
  intros s merged. subst s merged.
  split; [reflexivity|]. split; [reflexivity|]. split; [reflexivity|].
  split; [reflexivity|].
  rewrite evaluate_eq.
  assert (single_row (with_constants (vocs (self constant_state)) (point 1))
          = Ok [(0, with_constants (vocs (self constant_state)) (point 1))])
    as -> by reflexivity.
  assert (validate_input_data (vocs (self constant_state))
            [(0, with_constants (vocs (self constant_state)) (point 1))] = true)
    as -> by reflexivity.
  eexists. split; [reflexivity|]. simpl.
  split; [reflexivity|]. split; [reflexivity|]. split; [|reflexivity].
  intros Heq. vm_compute in Heq. discriminate.
Qed.


(** C6 on a sequential generator that holds the candidate [{x: 1}]:
    [{x: 2}] is refused with [ValidationError] and changes nothing;
    [{x: 1}] is evaluated and appends one row. *)
Lemma sequential_candidate_gate_witness :
  evaluate_data sequential_generator numeric_f (FromDict (point 2)) sequential_state
  = (Raise ValidationError, sequential_state)
  ∧ ∃ res s',
      evaluate_data sequential_generator numeric_f (FromDict (point 1)) sequential_state
      = (res, s')
      ∧ (res = Ok [(0, <["f" := num 0]> (point 1))] ∨ res = Raise SerializationError)
      ∧ calls (world s') = [CallEvaluateData [(0, point 1)]]
      ∧ data (self s') = Some [(0, <["f" := num 0]> (point 1))].
Proof.
  split.
  - apply (sequential_candidate_gate sequential_generator numeric_f sequential_state
             (FromDict (point 2)) eq_refl eq_refl).
    intros df Hdf. vm_compute in Hdf. injection Hdf as <-. reflexivity.
  - destruct (sequential_candidate_gate sequential_generator numeric_f sequential_state
                (FromDict (point 1)) eq_refl eq_refl) as [_ Hyes].
    destruct (Hyes [(0, point 1)] eq_refl eq_refl eq_refl) as [_ Hrows].
    exact (Hrows [(0, <["f" := num 0]> (point 1))]
                 [(0, <["f" := num 0]> (point 1))]
                 eq_refl (λ _, eq_refl) eq_refl).
Defined.

(** C8 as stated fails: on a dataset built with the labels 0 and 5, the
    row added gets the label 2, the number of rows, and not 6, the
    largest label plus one. *)
Lemma add_data_labels_counterexample :
  index (rows_of (data sparse_xopt)) = [0; 5]
  ∧ index (rows_of (data (add_data (constant_generator 1) [(0, point 9)] sparse_xopt)))
    = [0; 5; 2]
  ∧ index (rows_of (data sparse_xopt))
    ++ labels_after_max (rows_of (data sparse_xopt)) (len [(0, point 9)])
    = [0; 5; 6]
  ∧ index (rows_of (data (add_data (constant_generator 1) [(0, point 9)] sparse_xopt)))
    ≠ index (rows_of (data sparse_xopt))
      ++ labels_after_max (rows_of (data sparse_xopt)) (len [(0, point 9)]).
Proof.
  split; [reflexivity|]. split; [reflexivity|]. split; [reflexivity|].
  vm_compute. congruence.
Qed.

(** C8 on a dataset with the labels 0, 1, 2: the row added gets 3. *)
Lemma add_data_labels_from_row_count_witness :
  index (relabel (n_data dense_xopt) [(0, point 9)])
  = labels_after_max (rows_of (data dense_xopt)) (len [(0, point 9)])
  ∧ index (rows_of (data (add_data (constant_generator 1) [(0, point 9)] dense_xopt)))
    = [0; 1; 2; 3].
Proof.
  destruct (add_data_labels_from_row_count (constant_generator 1)
              [(0, point 9)] dense_xopt) as (Hdata & _ & _ & _ & Hmax).
  split.
  - apply Hmax. reflexivity.
  - rewrite Hdata. reflexivity.
Defined.

(** C9 on a driver built with three rows: removing the row 1 in place
    leaves two rows labelled 0 and 1 in the dataset and in the
    generator. *)
Lemma mirror_follows_dataset_witness :
  ∃ s', remove_data [1] true (start dense_xopt) = (Ok None, s')
        ∧ mirrored (self s')
        ∧ index (rows_of (data (self s'))) = [0; 1]
        ∧ index (rows_of (gen_data (generator (self s')))) = [0; 1].
Proof.
  destruct (mirror_follows_dataset (constant_generator 1)
              (accumulative_constant_generator 1)) as (_ & _ & Hremove).
  destruct (Hremove (start dense_xopt) three_rows [1] eq_refl) as [Hin _].
  { intros i Hi. apply list_elem_of_singleton in Hi as ->.
    apply list_elem_of_In. simpl. tauto. }
  destruct Hin as (s' & Hrun & Hdata & Hgen & Hmirror & _).
  exists s'. split; [exact Hrun|]. split; [exact Hmirror|].
  rewrite Hdata, Hgen. split; reflexivity.
Defined.

Lemma exhausted_generator_declines : declines exhausted_generator.
Proof. intros g n. reflexivity. Qed.

(** C10 on a generator that has nothing to propose, with a cap of 5 and
    no data. *)
Lemma run_never_returns_witness :
  (∀ s0 : State unit, ∃ s1, step exhausted_generator numeric_f s0 = (Ok tt, s1)
                            ∧ data (self s1) = data (self s0))
  ∧ ∀ fuel, run exhausted_generator numeric_f fuel stalled_state = None.
Proof.
  apply (run_never_returns_when_generator_declines exhausted_generator numeric_f
           stalled_state 5 exhausted_generator_declines eq_refl).
  reflexivity.
Defined.


(** ** The constants of the problem definition *)

Lemma with_constants_other (v : VOCS) (inputs : Row) k :
  k ∉ (constants v).*1 → with_constants v inputs !! k = inputs !! k.
Proof.
  unfold with_constants. revert inputs.
  induction (constants v) as [|kv kvs IH]; intros inputs Hk; [done|].
  simpl. rewrite IH by (intros ?; apply Hk; by right).
  apply lookup_insert_ne. intros Heq. apply Hk. rewrite <- Heq. by left.
Qed.

Lemma with_constants_set (v : VOCS) (inputs : Row) name value :
  NoDup (constants v).*1 → (name, value) ∈ constants v →
  with_constants v inputs !! name = Some (CScalar value).
Proof.
  unfold with_constants. revert inputs.
  induction (constants v) as [|kv kvs IH]; intros inputs Hnd Hin.
  - by apply elem_of_nil in Hin.
  - apply NoDup_cons in Hnd as [Hfresh Hnd].
    apply elem_of_cons in Hin as [<-|Hin]; simpl.
    + pose proof (with_constants_other
                    {| objectives := []; constraints := []; constants := kvs;
                       validate_input_data := λ _, true |}
                    (<[name := CScalar value]> inputs) name Hfresh) as Hk.
      unfold with_constants in Hk. simpl in Hk. rewrite Hk.
      apply lookup_insert_eq.
    + by apply IH.
Qed.

(** The loop of [evaluate_data] over the columns does to each row what
    the loop of [evaluate] does to its record. *)
Lemma add_constants_rows (v : VOCS) (df : DataFrame) :
  add_constants v df = prod_map id (with_constants v) <$> df.
Proof.
  unfold add_constants, with_constants. revert df.
  induction (constants v) as [|kv kvs IH]; intros df; simpl.
  - rewrite <- (list_fmap_id df) at 1. apply list_fmap_ext. by intros _ [i r] _.
  - rewrite IH. unfold set_column. rewrite <- list_fmap_compose.
    apply list_fmap_ext. by intros _ [i r] _.
Qed.

(** X1: [evaluate_data] sets the constants of the problem definition in
    every row: the rows keep their order and labels, a column named
    like a constant holds the constant whatever the input held there,
    and the other columns are as given. *)
Theorem add_constants_overrides_inputs (v : VOCS) (df : DataFrame) :
  NoDup (constants v).*1 →
  index (add_constants v df) = index df
  ∧ ∀ (i : nat) (r : Z * Row),
      df !! i = Some r →
      ∃ r', add_constants v df !! i = Some r'
            ∧ r'.1 = r.1
            ∧ (∀ name value, (name, value) ∈ constants v →
                             r'.2 !! name = Some (CScalar value))
            ∧ (∀ k, k ∉ (constants v).*1 → r'.2 !! k = r.2 !! k).
Proof.
  intros Hnd. rewrite add_constants_rows. split.
  - unfold index. rewrite <- list_fmap_compose. apply list_fmap_ext.
    by intros _ [i r] _.
  - intros i [l r] Hi. exists (l, with_constants v r).
    rewrite list_lookup_fmap, Hi. split; [done|]. split; [done|]. split.
    + intros name value. by apply with_constants_set.
    + intros k. apply with_constants_other.
Qed.

(** ** What a call of [evaluate_data] leaves behind *)

Section EvaluateDataOutcomes.
Context {C : Type}.
Variable cls : GeneratorClass C.
Variable validate_outputs : DataFrame → bool.

(** A call is refused before the evaluator, or is what is left of it
    once the evaluator has answered. *)
Lemma evaluate_data_cases (s s' : State C) input res :
  evaluate_data cls validate_outputs input s = (res, s') →
  (res = Raise ValidationError ∧ s' = s)
  ∨ ∃ df,
      to_DataFrame input = Ok df
      ∧ validate_input_data (vocs (self s)) df = true
      ∧ candidate_ok cls (generator (self s)) (add_constants (vocs (self s)) df) = true
      ∧ after_evaluator cls validate_outputs s (add_constants (vocs (self s)) df)
          (evaluator_evaluate_data (evaluator (self s))
             (add_constants (vocs (self s)) df))
        = (res, s').
Proof.
  intros Hrun.
  destruct (to_DataFrame input) as [df|e] eqn:Hdf.
  2:{ rewrite (to_DataFrame_error _ _ Hdf) in Hdf.
      rewrite (evaluate_data_rejected cls validate_outputs s input _ Hdf) in Hrun.
      injection Hrun as <- <-. by left. }
  destruct (validate_input_data (vocs (self s)) df) eqn:Hv.
  2:{ rewrite (evaluate_data_invalid cls validate_outputs s input df Hdf Hv) in Hrun.
      injection Hrun as <- <-. by left. }
  destruct (candidate_ok cls (generator (self s)) (add_constants (vocs (self s)) df))
    eqn:Hc.
  2:{ rewrite (evaluate_data_mismatch cls validate_outputs s input df Hdf Hv Hc) in Hrun.
      injection Hrun as <- <-. by left. }
  rewrite (evaluate_data_accepted cls validate_outputs s input df Hdf Hv Hc) in Hrun.
  right. by exists df.
Qed.

(** X2: a failure of the evaluator is the failure of [evaluate_data]:
    the error that the evaluator raises on the table comes out as it
    is, after one call of the evaluator and no other; the driver object
    is the one of the call, dataset and generator included, and no file
    is written. *)
Theorem evaluate_data_evaluator_failure (s : State C) input df e :
  to_DataFrame input = Ok df →
  validate_input_data (vocs (self s)) df = true →
  candidate_ok cls (generator (self s)) (add_constants (vocs (self s)) df) = true →
  evaluator_evaluate_data (evaluator (self s)) (add_constants (vocs (self s)) df)
    = Raise e →
  ∃ s', evaluate_data cls validate_outputs input s = (Raise e, s')
        ∧ self s' = self s
        ∧ calls (world s')
          = calls (world s) ++ [CallEvaluateData (add_constants (vocs (self s)) df)]
        ∧ files (world s') = files (world s).
Proof.
  intros Hdf Hv Hc Hout.
  rewrite (evaluate_data_accepted cls validate_outputs s input df Hdf Hv Hc), Hout.
  unfold after_evaluator. eexists. split; [done|]. by simpl.
Qed.

(** X3: a successful [evaluate_data] has called the evaluator exactly
    once, on the input table with the constants set; the rows it
    returns are the rows it has appended, relabelled from the former
    row count; and when a dump file is set, the document written last
    holds the dataset with these rows. *)
Theorem evaluate_data_success (s s' : State C) input rows :
  evaluate_data cls validate_outputs input s = (Ok rows, s') →
  ∃ df out,
    to_DataFrame input = Ok df
    ∧ validate_input_data (vocs (self s)) df = true
    ∧ calls (world s')
      = calls (world s) ++ [CallEvaluateData (add_constants (vocs (self s)) df)]
    ∧ evaluator_evaluate_data (evaluator (self s)) (add_constants (vocs (self s)) df)
      = Ok out
    ∧ explode_all_columns out = Ok rows
    ∧ data (self s')
      = Some (rows_of (data (self s)) ++ relabel (n_data (self s)) rows)
    ∧ n_data (self s') = (n_data (self s) + len rows)%nat
    ∧ generator (self s')
      = generator_add_data cls (relabel (n_data (self s)) rows) (generator (self s))
    ∧ match dump_file (self s) with
      | None => files (world s') = files (world s)
      | Some fname =>
          files (world s') = (fname, snapshot cls (self s')) :: files (world s)
          ∧ snap_data (snapshot cls (self s')) = data (self s')
      end.
Proof.
  intros Hrun.
  apply evaluate_data_cases in Hrun as [[[=] _]|(df & Hdf & Hv & _ & Hafter)].
  unfold after_evaluator in Hafter.
  destruct (evaluator_evaluate_data _ _) as [out|e0] eqn:Hout; [|done].
  destruct (strict (self s) && negb (validate_outputs out)); [done|].
  destruct (explode_all_columns out) as [rows'|e0] eqn:Hrows; [|done].
  exists df, out.
  assert (rows' = rows ∧ self s' = add_data cls rows (self s)
          ∧ calls (world s')
            = calls (world s) ++ [CallEvaluateData (add_constants (vocs (self s)) df)]
          ∧ match dump_file (self s) with
            | None => files (world s') = files (world s)
            | Some fname =>
                files (world s') = (fname, snapshot cls (self s')) :: files (world s)
            end) as (-> & Hself & Hcalls & Hfiles).
  { destruct (dump_file (self s)) as [fname|].
    - simpl in Hafter. destruct (writable (world s) fname); [|done].
      by injection Hafter as <- <-.
    - by injection Hafter as <- <-. }
  repeat (split; [done|]). rewrite Hself.
  split; [apply data_add_data|]. split; [apply n_data_add_data|].
  split; [apply generator_add_data_eq|].
  destruct (dump_file (self s)); [|done]. by rewrite <- Hself.
Qed.

(** X4: when [strict] is off, the output check is skipped: whatever the
    result table holds under the declared outputs, its rows are stored. *)
Theorem evaluate_data_lenient (s : State C) input df out rows :
  strict (self s) = false →
  to_DataFrame input = Ok df →
  validate_input_data (vocs (self s)) df = true →
  candidate_ok cls (generator (self s)) (add_constants (vocs (self s)) df) = true →
  evaluator_evaluate_data (evaluator (self s)) (add_constants (vocs (self s)) df)
    = Ok out →
  explode_all_columns out = Ok rows →
  ∃ res s', evaluate_data cls validate_outputs input s = (res, s')
    ∧ (res = Ok rows ∨ res = Raise SerializationError)
    ∧ data (self s')
      = Some (rows_of (data (self s)) ++ relabel (n_data (self s)) rows).
Proof.
  intros Hstrict Hdf Hv Hc Hout Hrows.
  rewrite (evaluate_data_accepted cls validate_outputs s input df Hdf Hv Hc), Hout.
  unfold after_evaluator. rewrite Hstrict, Hrows. simpl.
  destruct (dump_file (self s)) as [fname|].
  - destruct (writable _ fname); eexists _, _; (split; [done|]); simpl;
      rewrite data_add_data; eauto.
  - eexists _, _. split; [done|]. simpl. rewrite data_add_data. eauto.
Qed.

(** X5: the batch is stored before the dump: when the dump file cannot
    be written, [evaluate_data] fails with [SerializationError] and the
    rows are in the dataset and in the generator all the same. *)
Theorem evaluate_data_dump_failure_keeps_batch
    (s : State C) input df out rows fname :
  dump_file (self s) = Some fname →
  writable (world s) fname = false →
  to_DataFrame input = Ok df →
  validate_input_data (vocs (self s)) df = true →
  candidate_ok cls (generator (self s)) (add_constants (vocs (self s)) df) = true →
  evaluator_evaluate_data (evaluator (self s)) (add_constants (vocs (self s)) df)
    = Ok out →
  (strict (self s) = true → validate_outputs out = true) →
  explode_all_columns out = Ok rows →
  ∃ s', evaluate_data cls validate_outputs input s = (Raise SerializationError, s')
    ∧ data (self s')
      = Some (rows_of (data (self s)) ++ relabel (n_data (self s)) rows)
    ∧ generator (self s')
      = generator_add_data cls (relabel (n_data (self s)) rows) (generator (self s))
    ∧ files (world s') = files (world s).
Proof.
  intros Hdump Hw Hdf Hv Hc Hout Hstrict Hrows.
  rewrite (evaluate_data_accepted cls validate_outputs s input df Hdf Hv Hc), Hout.
  unfold after_evaluator.
  assert (strict (self s) && negb (validate_outputs out) = false)
    as ->.
  { destruct (strict (self s)); [|done]. by rewrite Hstrict. }
  rewrite Hrows, Hdump. simpl. rewrite Hw.
  eexists. split; [done|]. simpl.
  split; [apply data_add_data|]. split; [apply generator_add_data_eq | done].
Qed.

(** X19: with a generator whose [add_data] appends, [evaluate_data]
    keeps the copy of the generator in step with the dataset: if the two
    match row for row before the call, they do after it, whether the
    call returns or fails, the failure of the dump included. *)
Theorem evaluate_data_keeps_mirror (s s' : State C) input res :
  accumulative cls →
  mirrored (self s) →
  evaluate_data cls validate_outputs input s = (res, s') →
  mirrored (self s').
Proof.
  intros Hacc Hm Hrun.
  apply evaluate_data_self in Hrun
    as [[-> _]|(df & out & rows & _ & _ & _ & -> & _)]; [done|].
  unfold mirrored in *.
  by rewrite data_add_data, generator_add_data_eq, Hacc, Hm.
Qed.

End EvaluateDataOutcomes.

(** ** What [step] and [run] keep *)

Lemma same_settings_refl {C} (X : Xopt C) : same_settings X X.
Proof. by repeat split. Qed.

Lemma same_settings_trans {C} (X Y Z : Xopt C) :
  same_settings X Y → same_settings Y Z → same_settings X Z.
Proof.
  intros (? & ? & ? & ? & ?) (? & ? & ? & ? & ?). repeat split; congruence.
Qed.

Section Loop.
Context {C : Type}.
Variable cls : GeneratorClass C.
Variable validate_outputs : DataFrame → bool.

(** The rows of the call are the first rows after the call, and a
    dense index stays dense. *)
Lemma evaluate_data_appends (s s' : State C) input res :
  evaluate_data cls validate_outputs input s = (res, s') →
  rows_of (data (self s)) `prefix_of` rows_of (data (self s'))
  ∧ (dense (rows_of (data (self s))) → dense (rows_of (data (self s')))).
Proof.
  intros Hrun. apply evaluate_data_self in Hrun
    as [[-> _]|(df & out & rows & _ & _ & _ & -> & _)]; [done|].
  split.
  - rewrite data_add_data. simpl. by apply prefix_app_r.
  - apply add_data_dense.
Qed.

Lemma step_appends (s s' : State C) res :
  step cls validate_outputs s = (res, s') →
  rows_of (data (self s)) `prefix_of` rows_of (data (self s'))
  ∧ (dense (rows_of (data (self s))) → dense (rows_of (data (self s')))).
Proof.
  rewrite step_eq.
  destruct (generate cls _ _) as [[[inp|]|e] g]; simpl.
  - destruct (evaluate_data cls validate_outputs inp _) as [[rows|e] s1] eqn:Hev;
      intros [= <- <-]; by apply evaluate_data_appends in Hev.
  - by intros [= <- <-].
  - by intros [= <- <-].
Qed.

Lemma run_loop_appends (fuel : nat) (s s' : State C) res :
  run_loop cls validate_outputs fuel s = Some (res, s') →
  rows_of (data (self s)) `prefix_of` rows_of (data (self s'))
  ∧ (dense (rows_of (data (self s))) → dense (rows_of (data (self s'))))
  ∧ same_settings (self s) (self s').
Proof.
  revert s. induction fuel as [|fuel IH]; intros s Hrun; [done|].
  simpl in Hrun.
  destruct (match max_evaluations (self s) with
            | Some cap => bool_decide (cap ≤ Z.of_nat (n_data (self s)))
            | None => false
            end).
  { injection Hrun as <- <-. split; [done|]. split; [done|].
    apply same_settings_refl. }
  destruct (step cls validate_outputs s) as [[[]|e] s1] eqn:Hstep.
  - destruct (step_appends s s1 _ Hstep) as [Hpre Hdense].
    pose proof (step_settings cls validate_outputs s s1 _ Hstep) as Hset.
    destruct (IH s1 Hrun) as (Hpre' & Hdense' & Hset').
    split; [by etrans|]. split; [auto|]. by eapply same_settings_trans.
  - injection Hrun as <- <-.
    destruct (step_appends s s1 _ Hstep) as [Hpre Hdense].
    split; [done|]. split; [done|]. by apply (step_settings cls validate_outputs s s1 _ Hstep).
Qed.

(** X6: [run] adds labels and rows at the end only: however it ends
    (cap reached, or failure of a step), the labels that the dataset
    had at the start are its first labels at the end, in the same
    order, the row count has not gone down, and no setting of the
    driver has changed. *)
Theorem run_keeps_labels_and_settings (fuel : nat) (s s' : State C) res :
  run cls validate_outputs fuel s = Some (res, s') →
  index (rows_of (data (self s))) `prefix_of` index (rows_of (data (self s')))
  ∧ (n_data (self s) ≤ n_data (self s'))%nat
  ∧ same_settings (self s) (self s').
Proof.
  unfold run. destruct (max_evaluations (self s)) as [cap|].
  - intros Hrun. destruct (run_loop_appends fuel s s' res Hrun) as (Hpre & _ & Hset).
    split; [|split; [|done]].
    + destruct Hpre as [k ->]. unfold index. rewrite fmap_app. by eexists.
    + rewrite !n_data_rows. by apply prefix_length.
  - intros [= <- <-]. split; [done|]. split; [done|]. apply same_settings_refl.
Qed.

(** X7: [run] keeps the index dense: if the labels are 0..n-1 at the
    start, they are 0..m-1 at the end, whatever the generator and the
    evaluator do and however the run ends. *)
Theorem run_keeps_index_dense (fuel : nat) (s s' : State C) res :
  dense (rows_of (data (self s))) →
  run cls validate_outputs fuel s = Some (res, s') →
  index (rows_of (data (self s'))) = arange 0 (n_data (self s')).
Proof.
  intros Hdense. unfold run. rewrite n_data_rows.
  destruct (max_evaluations (self s)) as [cap|].
  - intros Hrun. by apply (run_loop_appends fuel s s' res Hrun).
  - by intros [= <- <-].
Qed.

(** Progress: a bound on the trips that [run] needs. *)
Lemma run_loop_returns (k : nat) (X0 : Xopt C) (s : State C) cap :
  productive cls validate_outputs X0 →
  same_settings X0 (self s) →
  max_evaluations X0 = Some cap →
  cap - Z.of_nat (n_data (self s)) ≤ Z.of_nat k →
  ∃ s', run_loop cls validate_outputs (S k) s = Some (Ok tt, s')
        ∧ cap ≤ Z.of_nat (n_data (self s')).
Proof.
  intros Hprod. revert s. induction k as [|k IH]; intros s Hset Hcap Hk.
  - exists s. split; [|lia].
    apply (run_loop_stop cls validate_outputs s 0 cap); [|lia].
    destruct Hset as (_ & _ & _ & _ & ->). done.
  - assert (max_evaluations (self s) = Some cap) as Hcap'.
    { destruct Hset as (_ & _ & _ & _ & ->). done. }
    destruct (decide (cap ≤ Z.of_nat (n_data (self s)))) as [Hge|Hlt].
    { exists s. split; [|done]. by apply (run_loop_stop cls validate_outputs s (S k) cap). }
    rewrite (run_loop_step cls validate_outputs s (S k) cap Hcap') by lia.
    destruct (Hprod s Hset) as (s1 & Hstep & Hgrow). rewrite Hstep.
    apply IH; [|done|lia].
    eapply same_settings_trans; [done|]. by apply (step_settings cls validate_outputs s s1 _ Hstep).
Qed.

(** X8: when every step adds at least one row, [run] returns: a driver
    with the cap [cap] and [n] rows needs at most [cap - n] steps, and
    ends with at least [cap] rows. *)
Theorem run_returns_when_steps_add_rows (s : State C) cap :
  productive cls validate_outputs (self s) →
  max_evaluations (self s) = Some cap →
  ∃ s', run cls validate_outputs (S (Z.to_nat (cap - Z.of_nat (n_data (self s))))) s = Some (Ok tt, s')
        ∧ cap ≤ Z.of_nat (n_data (self s')).
Proof.
  intros Hprod Hcap. unfold run. rewrite Hcap.
  apply (run_loop_returns _ (self s)); [done | apply same_settings_refl | done | lia].
Qed.

End Loop.

(** ** More on [remove_data] and [reset_data] *)

Lemma drop_labels_missing (d : DataFrame) indices i :
  i ∈ indices → i ∉ index d → drop_labels indices d = Raise KeyError.
Proof.
  intros Hi Hno. unfold drop_labels.
  destruct (forallb _ indices) eqn:Hall; [|done].
  rewrite forallb_forall in Hall.
  apply list_elem_of_In, Hall, bool_decide_eq_true in Hi. done.
Qed.

(** With distinct labels, the rows dropped are as many as the labels
    listed. *)
Lemma len_filter_labels (d : DataFrame) (indices : list Z) :
  NoDup (index d) → NoDup indices → (∀ i, i ∈ indices → i ∈ index d) →
  (len (filter (λ r : Z * Row, r.1 ∉ indices) d) + length indices = len d)%nat.
Proof.
  intros Hd Hi Hin. unfold len.
  rewrite <- (Permutation_length (filter_app_complement (λ r : Z * Row, r.1 ∈ indices) d)).
  rewrite length_app.
  assert (length (filter (λ r : Z * Row, r.1 ∈ indices) d) = length indices) as ->;
    [|lia].
  rewrite <- (length_fmap fst). apply Permutation_length, NoDup_Permutation; [|done|].
  - eapply sublist_NoDup; [exact Hd|]. unfold index.
    apply fmap_sublist, sublist_filter.
  - intros x. rewrite list_elem_of_fmap. split.
    + intros (r & -> & Hr). by apply list_elem_of_filter in Hr as [? _].
    + intros Hx. destruct (proj1 (list_elem_of_fmap _ _ _) (Hin x Hx)) as (r & -> & Hr).
      exists r. split; [done|]. by apply list_elem_of_filter.
Qed.

Section MoreMutations.
Context {C : Type}.
Variable cls : GeneratorClass C.

(** X9: [remove_data] fails without touching anything: with
    [AttributeError] when the driver has no dataset, and with [KeyError]
    as soon as one of the labels is not a label of the dataset, in
    place or not. *)
Theorem remove_data_failure (s : State C) indices (inplace : bool) :
  (data (self s) = None →
   remove_data indices inplace s = (Raise AttributeError, s))
  ∧ (∀ d i, data (self s) = Some d → i ∈ indices → i ∉ index d →
            remove_data indices inplace s = (Raise KeyError, s)).
Proof.
  split.
  - intros Hnone. unfold remove_data, bind, get_self. simpl. by rewrite Hnone.
  - intros d i Hd Hi Hno.
    unfold remove_data, bind, get_self, lift. simpl. rewrite Hd. simpl.
    by rewrite (drop_labels_missing d indices i).
Qed.

(** X10: on a dataset with distinct labels, removing distinct labels
    that are all present leaves as many rows less as labels given; the
    rows left are the rows under the other labels, in their order,
    relabelled 0..m-1. *)
Theorem remove_data_row_count (s : State C) (d : DataFrame) indices :
  data (self s) = Some d →
  NoDup (index d) → NoDup indices → (∀ i, i ∈ indices → i ∈ index d) →
  ∃ s', remove_data indices true s = (Ok None, s')
        ∧ (n_data (self s') + length indices = n_data (self s))%nat
        ∧ (rows_of (data (self s'))).*2
          = (filter (λ r : Z * Row, r.1 ∉ indices) d).*2
        ∧ index (rows_of (data (self s'))) = arange 0 (n_data (self s')).
Proof.
  intros Hd Hnd Hni Hin.
  rewrite (remove_data_eq s d indices true Hd Hin).
  eexists. split; [done|]. simpl.
  rewrite (n_data_rows (self s)), Hd. simpl.
  unfold n_data. simpl. rewrite len_relabel.
  split; [by apply len_filter_labels|]. split.
  - unfold relabel. apply rows_set_index. rewrite length_arange. lia.
  - by rewrite index_relabel.
Qed.

(** X11: [remove_data] in place repairs the index: whatever the labels
    of the dataset were (sparse, unordered or repeated), after a
    removal that succeeds, even of no label at all, the batches added
    next keep the index 0..n-1. *)
Theorem remove_data_then_add_data_dense
    (s : State C) (d : DataFrame) indices (batches : list DataFrame) :
  data (self s) = Some d →
  (∀ i, i ∈ indices → i ∈ index d) →
  ∃ s', remove_data indices true s = (Ok None, s')
        ∧ index (rows_of (data (add_all cls batches (self s'))))
          = arange 0 (n_data (self s') + sum_list (len <$> batches)).
Proof.
  intros Hd Hin. rewrite (remove_data_eq s d indices true Hd Hin).
  eexists. split; [done|]. simpl.
  match goal with |- context [add_all cls batches ?X] =>
    destruct (add_all_dense cls batches X) as [Hdense Hn]
  end.
  { simpl. apply dense_relabel_0. }
  unfold dense in Hdense. by rewrite Hdense, <- n_data_rows, Hn.
Qed.

(** X12: after [reset_data] the labels start again at 0: the batches
    added next are labelled 0..n-1, [n] being their number of rows; the
    settings of the driver and the state of the algorithm of the
    generator are those of before. *)
Theorem reset_data_restarts_index (X : Xopt C) (batches : list DataFrame) :
  n_data (reset_data X) = 0%nat
  ∧ index (rows_of (data (add_all cls batches (reset_data X))))
    = arange 0 (sum_list (len <$> batches))
  ∧ n_data (add_all cls batches (reset_data X)) = sum_list (len <$> batches)
  ∧ gen_state (generator (reset_data X)) = gen_state (generator X)
  ∧ same_settings X (reset_data X).
Proof.
  split; [done|].
  destruct (add_all_dense cls batches (reset_data X)) as [Hdense Hn].
  { apply dense_nil. }
  change (n_data (reset_data X)) with 0%nat in Hn. simpl in Hn.
  split; [|split; [done|]].
  - unfold dense in Hdense. by rewrite Hdense, <- n_data_rows, Hn.
  - split; [done|]. by repeat split.
Qed.

(** X13: [evaluate] never stores: whatever the record and the outcome,
    the driver object and the files are as before.  A record that
    fails the check of the input changes nothing at all; otherwise the
    evaluator is called once, with the record of the caller, and its
    answer is the answer of [evaluate]. *)
Theorem evaluate_never_stores (s s' : State C) (input_dict : Row) res :
  evaluate input_dict s = (res, s') →
  self s' = self s
  ∧ files (world s') = files (world s)
  ∧ ((res = Raise ValidationError ∧ s' = s)
     ∨ (calls (world s') = calls (world s) ++ [CallEvaluate input_dict]
        ∧ res = evaluator_evaluate (evaluator (self s)) input_dict)).
Proof.
  rewrite evaluate_eq. unfold single_row.
  destruct (forallb _ _).
  - destruct (validate_input_data _ _); intros [= <- <-]; simpl; eauto.
  - intros [= <- <-]. eauto.
Qed.

End MoreMutations.

(** ** Inputs given as dictionaries *)

Lemma pick_scalars (d : Row) (j : nat) :
  (∀ k vs, d !! k ≠ Some (CList vs)) → pick j <$> d = d.
Proof.
  intros Hsc. apply map_eq. intros k. rewrite lookup_fmap.
  destruct (d !! k) as [[v|vs]|] eqn:Hk; [done| |done].
  by destruct (Hsc k vs).
Qed.

Lemma list_lengths_scalars (d : Row) :
  (∀ k vs, d !! k ≠ Some (CList vs)) → list_lengths d = [].
Proof.
  intros Hsc. destruct (list_lengths d) as [|n ns] eqn:Hl; [done|].
  assert (n ∈ list_lengths d) as Hn by (rewrite Hl; left).
  apply elem_of_list_lengths in Hn as (k & vs & Hk & _). by destruct (Hsc k vs).
Qed.

Lemma list_lengths_uniform (d : Row) (n : nat) k0 vs0 :
  d !! k0 = Some (CList vs0) →
  (∀ k vs, d !! k = Some (CList vs) → length vs = n) →
  ∃ ns, list_lengths d = n :: ns ∧ forallb (Nat.eqb n) ns = true.
Proof.
  intros Hk0 Hlen.
  assert (∀ x, x ∈ list_lengths d → x = n) as Hall.
  { intros x Hx. apply elem_of_list_lengths in Hx as (k & vs & Hk & <-).
    by eapply Hlen. }
  destruct (list_lengths d) as [|m ms] eqn:Hl.
  - assert (length vs0 ∈ list_lengths d) as Hin
      by (apply elem_of_list_lengths; eauto).
    rewrite Hl in Hin. by apply elem_of_nil in Hin.
  - assert (m = n) as -> by (apply Hall; left).
    exists ms. split; [done|]. apply forallb_eqb_true.
    intros x Hx. apply Hall. by right.
Qed.

Lemma list_lengths_ragged (d : Row) k1 k2 vs1 vs2 :
  d !! k1 = Some (CList vs1) → d !! k2 = Some (CList vs2) →
  length vs1 ≠ length vs2 →
  ∃ n ns, list_lengths d = n :: ns ∧ forallb (Nat.eqb n) ns = false
          ∧ forallb (Nat.eqb 1) (n :: ns) = false.
Proof.
  intros H1 H2 Hne.
  assert (length vs1 ∈ list_lengths d) as Hin1
    by (apply elem_of_list_lengths; eauto).
  assert (length vs2 ∈ list_lengths d) as Hin2
    by (apply elem_of_list_lengths; eauto).
  destruct (list_lengths d) as [|m ms]; [by apply elem_of_nil in Hin1|].
  exists m, ms. split; [done|]. split.
  - destruct (forallb (Nat.eqb m) ms) eqn:Hall; [|done].
    exfalso. rewrite forallb_eqb_true in Hall.
    apply Hne. transitivity m.
    + apply elem_of_cons in Hin1 as [?|?]; [done | by apply Hall].
    + apply elem_of_cons in Hin2 as [?|?]; [done | symmetry; by apply Hall].
  - destruct (forallb (Nat.eqb 1) (m :: ms)) eqn:Hall; [|done].
    exfalso. rewrite forallb_eqb_true in Hall.
    apply Hne. by rewrite (Hall _ Hin1), (Hall _ Hin2).
Qed.

(** X14: how [evaluate_data] reads a dictionary.  The empty dictionary
    is the table without rows; a dictionary of scalars is the single
    row 0 that holds them; a dictionary with lists of one length [n] is
    [n] rows labelled 0..n-1, row [j] holding element [j] of each list
    and the scalars; lists of different lengths are refused with
    [ValidationError]. *)
Theorem to_DataFrame_of_dictionary (d : Row) :
  to_DataFrame (FromDict ∅) = Ok []
  ∧ (d ≠ ∅ → (∀ k vs, d !! k ≠ Some (CList vs)) →
     to_DataFrame (FromDict d) = Ok [(0, d)])
  ∧ (∀ n k0 vs0,
       d !! k0 = Some (CList vs0) →
       (∀ k vs, d !! k = Some (CList vs) → length vs = n) →
       ∃ df, to_DataFrame (FromDict d) = Ok df
             ∧ len df = n
             ∧ index df = arange 0 n
             ∧ ∀ (j : nat) r, df !! j = Some r →
                 (∀ k v, d !! k = Some (CScalar v) → r.2 !! k = Some (CScalar v))
                 ∧ (∀ k vs x, d !! k = Some (CList vs) → vs !! j = Some x →
                              r.2 !! k = Some (CScalar x)))
  ∧ (∀ k1 k2 vs1 vs2,
       d !! k1 = Some (CList vs1) → d !! k2 = Some (CList vs2) →
       length vs1 ≠ length vs2 →
       to_DataFrame (FromDict d) = Raise ValidationError).
Proof.
  split; [done|]. split; [|split].
  - intros Hne Hsc. simpl. unfold DataFrame_of_dict, single_row.
    rewrite decide_False by done.
    rewrite (list_lengths_scalars d Hsc). simpl. by rewrite pick_scalars.
  - intros n k0 vs0 Hk0 Hlen. simpl. unfold DataFrame_of_dict.
    rewrite decide_False by (intros ->; by rewrite lookup_empty in Hk0).
    destruct (list_lengths_uniform d n k0 vs0 Hk0 Hlen) as (ns & -> & ->).
    eexists. split; [done|]. split; [|split].
    + unfold len. by rewrite length_fmap, length_seq.
    + unfold index, arange. rewrite <- list_fmap_compose, Nat.sub_0_r.
      by apply list_fmap_ext.
    + intros j r Hr. rewrite list_lookup_fmap in Hr.
      destruct (seq 0 n !! j) as [j'|] eqn:Hj; [|done].
      apply lookup_seq in Hj as [-> _]. injection Hr as <-. simpl. split.
      * intros k v. apply pick_scalar.
      * intros k vs x. apply pick_list.
  - intros k1 k2 vs1 vs2 H1 H2 Hne. simpl. unfold DataFrame_of_dict, single_row.
    rewrite decide_False by (intros ->; by rewrite lookup_empty in H1).
    destruct (list_lengths_ragged d k1 k2 vs1 vs2 H1 H2 Hne) as (n & ns & -> & -> & ->).
    done.
Qed.

(** X15: an input that is not a table is labelled by position: when
    [evaluate_data] builds the table itself, from a list of records or
    from a dictionary, its labels are 0..k-1; the rows of a list of
    records are the records, in order. *)
Theorem to_DataFrame_labels_by_position (input : InputData) (df : DataFrame) :
  (∀ given, input ≠ FromDataFrame given) →
  to_DataFrame input = Ok df →
  index df = arange 0 (len df)
  ∧ ∀ records, input = FromRecords records → df.*2 = records.
Proof.
  intros Hnot Hdf. destruct input as [given|records|d].
  - by destruct (Hnot given).
  - injection Hdf as <-. split.
    + unfold index, len.
      rewrite fst_zip by (rewrite length_arange; lia).
      rewrite length_zip_with, length_arange. f_equal. lia.
    + intros ? [= <-]. apply snd_zip. rewrite length_arange. lia.
  - split; [|done]. simpl in Hdf. unfold DataFrame_of_dict, single_row in Hdf.
    destruct (decide (d = ∅)) as [Hempty|Hne]; [by injection Hdf as <-|].
    destruct (list_lengths d) as [|n ns].
    + simpl in Hdf. by injection Hdf as <-.
    + destruct (forallb (Nat.eqb n) ns).
      * injection Hdf as <-. unfold index, len, arange.
        rewrite <- list_fmap_compose, length_fmap, length_seq, Nat.sub_0_r.
        by apply list_fmap_ext.
      * destruct (forallb (Nat.eqb 1) (n :: ns)); [|done]. by injection Hdf as <-.
Qed.

(** ** Construction *)

Section ConstructionFacts.
Context {C : Type}.
Variable VOCS_new : gmap string Scalar → Result VOCS.
Variable get_generator : Scalar → Result (GeneratorModel C).

Lemma with_vocs_insert (block : gmap string Scalar) (x : Scalar) (v : VOCS) :
  with_vocs (<["vocs" := x]> block) v = with_vocs block v.
Proof. unfold with_vocs. by rewrite fmap_insert, insert_insert_eq. Qed.

Lemma with_vocs_delete (block : gmap string Scalar) (v : VOCS) :
  with_vocs (delete "vocs" block) v = with_vocs block v.
Proof. unfold with_vocs. by rewrite fmap_delete, insert_delete_eq. Qed.

(** X16: what [json] writes, [validate_model] reads back: on a
    generator block tagged with the registered name, [validate_model]
    asks [get_generator] for that name and hands the class the block as
    it was before the tag, with the problem definition of the driver
    under [vocs]. *)
Theorem validate_model_dispatches_on_tag
    (registered : string) (block : gmap string Scalar) (v : VOCS) :
  block !! "name" = None →
  validate_model VOCS_new get_generator
    (Build_ModelData (Some (VocsObject v))
       (Some (GenDict (tag_generator registered block))))
  = and_then (get_generator (SText registered)) (λ generator_class,
    and_then (model_validate generator_class (with_vocs block v)) (λ g,
    Ok (v, (gm_class generator_class, g)))).
Proof.
  intros Hfree. unfold validate_model. simpl.
  by rewrite (tag_generator_pop_name registered block Hfree).
Qed.

(** X17: a generator given by its name alone is the generator given by
    the block that holds nothing but this name. *)
Theorem validate_model_name_alone (vocs_arg : option VocsArg) (registered : string) :
  validate_model VOCS_new get_generator
    (Build_ModelData vocs_arg (Some (GenName registered)))
  = validate_model VOCS_new get_generator
      (Build_ModelData vocs_arg (Some (GenDict {[ "name" := SText registered ]}))).
Proof.
  unfold validate_model, pop_name. simpl.
  rewrite lookup_singleton_eq. simpl. by rewrite delete_singleton_eq.
Qed.

(** X18: the generator is built on the problem definition of the
    driver: an entry [vocs] of the generator block is never read. *)
Theorem validate_model_ignores_block_vocs
    (vocs_arg : option VocsArg) (block : gmap string Scalar) (x : Scalar) :
  validate_model VOCS_new get_generator
    (Build_ModelData vocs_arg (Some (GenDict (<["vocs" := x]> block))))
  = validate_model VOCS_new get_generator
      (Build_ModelData vocs_arg (Some (GenDict (delete "vocs" block)))).
Proof.
  unfold validate_model, pop_name. simpl.
  rewrite lookup_insert_ne, lookup_delete_ne by done.
  destruct vocs_arg as [[dv|v]|]; simpl;
    [destruct (VOCS_new dv) as [v|e]; simpl; [|done] | | done];
    (destruct (block !! "name") as [tag|]; simpl; [|done]);
    rewrite (delete_insert_ne block "name" "vocs") by done;
    rewrite (delete_delete block "name" "vocs");
    by rewrite with_vocs_insert, with_vocs_delete.
Qed.

(** [validate_model] fails with [KeyError] when the key [vocs] or the
    key [generator] is missing, and when the generator block has no
    [name]. *)
Lemma validate_model_missing_key (data : ModelData C) :
  (md_vocs data = None →
   validate_model VOCS_new get_generator data = Raise KeyError)
  ∧ (∀ v, md_vocs data = Some (VocsObject v) → md_generator data = None →
          validate_model VOCS_new get_generator data = Raise KeyError)
  ∧ (∀ v block, md_vocs data = Some (VocsObject v) →
                md_generator data = Some (GenDict block) →
                block !! "name" = None →
                validate_model VOCS_new get_generator data = Raise KeyError).
Proof.
  unfold validate_model. split; [|split].
  - by intros ->.
  - by intros v -> ->.
  - intros v block -> -> Hname. simpl. unfold pop_name. by rewrite Hname.
Qed.

End ConstructionFacts.

(** ** The further statements on concrete drivers *)


(** Every step of the driver with a cap of 5 and 2 workers adds 2 rows. *)
Lemma capped_state_productive :
  productive (constant_generator 1) numeric_f (self capped_state).
Proof.
  intros [[v g ev st df cap d t1 t2] w] (Hv & Hev & Hst & Hdf & Hcap).
  simpl in Hv, Hev, Hst, Hdf, Hcap. subst v ev st df cap.
  pose (s1 := Build_State
                {| vocs := vocs_xf []; generator := g;
                   evaluator := scoring_evaluator 2; strict := true;
                   dump_file := None; max_evaluations := Some 5; data := d;
                   serialize_torch := t1; serialize_inline := t2 |} w).
  pose (rows := [(0, ({[ "f" := num 0 ]} : Row)); (1, ({[ "f" := num 0 ]} : Row))]
                : DataFrame).
  assert (evaluate_data (constant_generator 1) numeric_f
            (FromRecords (replicate 2 (point 1))) s1
          = (Ok rows, Build_State (add_data (constant_generator 1) rows (self s1))
                        (asked (zip (arange 0 2) (replicate 2 (point 1))) w)))
    as Hrun.
  { rewrite (evaluate_data_accepted (constant_generator 1) numeric_f s1 _
               (zip (arange 0 2) (replicate 2 (point 1))))
      by reflexivity.
    reflexivity. }
  eexists. split.
  - rewrite step_eq. simpl.
    match goal with
    | |- context [evaluate_data ?c ?vo ?i ?st] =>
        change (evaluate_data c vo i st)
          with (evaluate_data (constant_generator 1) numeric_f
                  (FromRecords (replicate 2 (point 1))) s1)
    end.
    by rewrite Hrun.
  - simpl. rewrite n_data_add_data. simpl. unfold len. simpl. lia.
Qed.

(** X1 on a row that comes with its own value for the constant [c]. *)
Lemma add_constants_overrides_inputs_witness :
  let v := vocs_xf [("c", SNum 7)] in
  let df := [(4, row_with_c)] in
  index (add_constants v df) = index df
  ∧ ∀ (i : nat) (r : Z * Row),
      df !! i = Some r →
      ∃ r', add_constants v df !! i = Some r'
            ∧ r'.1 = r.1
            ∧ (∀ name value, (name, value) ∈ constants v →
                             r'.2 !! name = Some (CScalar value))
            ∧ (∀ k, k ∉ (constants v).*1 → r'.2 !! k = r.2 !! k).
Proof.
  intros v df.
  apply (add_constants_overrides_inputs v df).
  apply NoDup_singleton.
Defined.

(** X2 on a driver with three rows whose evaluator fails. *)
Lemma evaluate_data_evaluator_failure_witness :
  ∃ s', evaluate_data (constant_generator 1) numeric_f (FromDict (point 1)) failing_state
        = (Raise (CollaboratorError "evaluation failed"), s')
        ∧ self s' = self failing_state
        ∧ calls (world s')
          = calls (world failing_state)
            ++ [CallEvaluateData (add_constants (vocs (self failing_state)) [(0, point 1)])]
        ∧ files (world s') = files (world failing_state).
Proof.
  exact (evaluate_data_evaluator_failure (constant_generator 1) numeric_f failing_state
           (FromDict (point 1)) [(0, point 1)] _ eq_refl eq_refl eq_refl eq_refl).
Defined.

(** X3 on the driver that dumps to [out.yaml]. *)
Lemma evaluate_data_success_witness :
  evaluate_data (constant_generator 1) numeric_f (FromDict (point 1)) dumping_state
  = (Ok [(0, {[ "f" := num 0 ]})], dumping_state_end)
  ∧ data (self dumping_state_end) = Some [(0, {[ "f" := num 0 ]})]
  ∧ n_data (self dumping_state_end) = 1%nat
  ∧ files (world dumping_state_end)
    = [("out.yaml", snapshot (constant_generator 1) (self dumping_state_end))].
Proof.
  assert (evaluate_data (constant_generator 1) numeric_f (FromDict (point 1)) dumping_state
          = (Ok [(0, {[ "f" := num 0 ]})], dumping_state_end)) as Hrun
    by (vm_compute; reflexivity).
  split; [exact Hrun|].
  destruct (evaluate_data_success (constant_generator 1) numeric_f dumping_state
              dumping_state_end (FromDict (point 1)) _ Hrun)
    as (df & out & _ & _ & _ & _ & _ & Hdata & Hn & _ & Hfiles).
  split; [exact Hdata|]. split; [exact Hn|]. exact (proj1 Hfiles).
Defined.

(** X4 on the driver that is not strict: the row without objective is
    stored. *)
Lemma evaluate_data_lenient_witness :
  numeric_f [(0, point 1)] = false
  ∧ ∃ res s',
      evaluate_data (constant_generator 1) numeric_f (FromDict (point 1)) lenient_state
      = (res, s')
      ∧ (res = Ok [(0, point 1)] ∨ res = Raise SerializationError)
      ∧ data (self s')
        = Some (rows_of (data (self lenient_state))
                ++ relabel (n_data (self lenient_state)) [(0, point 1)]).
Proof.
  split; [reflexivity|].
  exact (evaluate_data_lenient (constant_generator 1) numeric_f lenient_state
           (FromDict (point 1)) [(0, point 1)] [(0, point 1)] [(0, point 1)]
           eq_refl eq_refl eq_refl eq_refl eq_refl eq_refl).
Defined.

(** X5 on the driver whose dump file cannot be written. *)
Lemma evaluate_data_dump_failure_keeps_batch_witness :
  ∃ s', evaluate_data (constant_generator 1) numeric_f (FromDict (point 1)) read_only_state
        = (Raise SerializationError, s')
    ∧ data (self s')
      = Some (rows_of (data (self read_only_state))
              ++ relabel (n_data (self read_only_state)) [(0, {[ "f" := num 0 ]})])
    ∧ generator (self s')
      = generator_add_data (constant_generator 1)
          (relabel (n_data (self read_only_state)) [(0, {[ "f" := num 0 ]})])
          (generator (self read_only_state))
    ∧ files (world s') = files (world read_only_state).
Proof.
  exact (evaluate_data_dump_failure_keeps_batch (constant_generator 1) numeric_f
           read_only_state (FromDict (point 1)) [(0, point 1)]
           [(0, {[ "f" := num 0 ]})] [(0, {[ "f" := num 0 ]})] "out.yaml"
           eq_refl eq_refl eq_refl eq_refl eq_refl eq_refl (λ _, eq_refl) eq_refl).
Defined.

(** X6 on the run with a cap of 5 and 2 workers. *)
Lemma run_keeps_labels_and_settings_witness :
  run (constant_generator 1) numeric_f 4 capped_state = Some (Ok tt, capped_state_end)
  ∧ index (rows_of (data (self capped_state)))
    `prefix_of` index (rows_of (data (self capped_state_end)))
  ∧ (n_data (self capped_state) ≤ n_data (self capped_state_end))%nat
  ∧ same_settings (self capped_state) (self capped_state_end).
Proof.
  assert (run (constant_generator 1) numeric_f 4 capped_state = Some (Ok tt, capped_state_end))
    as Hrun by (vm_compute; reflexivity).
  split; [exact Hrun|].
  exact (run_keeps_labels_and_settings (constant_generator 1) numeric_f 4 capped_state
           capped_state_end (Ok tt) Hrun).
Defined.

(** X7 on the same run: the labels are 0..5 at the end. *)
Lemma run_keeps_index_dense_witness :
  run (constant_generator 1) numeric_f 4 capped_state = Some (Ok tt, capped_state_end)
  ∧ index (rows_of (data (self capped_state_end)))
    = arange 0 (n_data (self capped_state_end)).
Proof.
  assert (run (constant_generator 1) numeric_f 4 capped_state = Some (Ok tt, capped_state_end))
    as Hrun by (vm_compute; reflexivity).
  split; [exact Hrun|].
  exact (run_keeps_index_dense (constant_generator 1) numeric_f 4 capped_state
           capped_state_end (Ok tt) dense_nil Hrun).
Defined.

(** X8 on the same driver: the run returns within 5 steps. *)
Lemma run_returns_when_steps_add_rows_witness :
  ∃ s', run (constant_generator 1) numeric_f
          (S (Z.to_nat (5 - Z.of_nat (n_data (self capped_state))))) capped_state
        = Some (Ok tt, s')
        ∧ 5 ≤ Z.of_nat (n_data (self s')).
Proof.
  exact (run_returns_when_steps_add_rows (constant_generator 1) numeric_f capped_state 5
           capped_state_productive eq_refl).
Defined.

(** X9 on a driver without dataset, and on the label 7 that the dataset
    of three rows does not have. *)
Lemma remove_data_failure_witness :
  remove_data [0] true capped_state = (Raise AttributeError, capped_state)
  ∧ remove_data [1; 7] false (start dense_xopt) = (Raise KeyError, start dense_xopt).
Proof.
  split.
  - apply (remove_data_failure capped_state [0] true).
    reflexivity.
  - apply (proj2 (remove_data_failure (start dense_xopt) [1; 7] false)
             three_rows 7 eq_refl).
    + apply list_elem_of_In. simpl. tauto.
    + intros Hin. apply list_elem_of_In in Hin. simpl in Hin.
      repeat destruct Hin as [Hin|Hin]; try discriminate. done.
Defined.

(** X10 on the dataset of three rows: without the row 1, two rows. *)
Lemma remove_data_row_count_witness :
  ∃ s', remove_data [1] true (start dense_xopt) = (Ok None, s')
        ∧ (n_data (self s') + length [1] = n_data (self (start dense_xopt)))%nat
        ∧ (rows_of (data (self s'))).*2
          = (filter (λ r : Z * Row, r.1 ∉ [1]) three_rows).*2
        ∧ index (rows_of (data (self s'))) = arange 0 (n_data (self s')).
Proof.
  apply (remove_data_row_count (start dense_xopt) three_rows [1] eq_refl).
  - apply (bool_decide_unpack _). reflexivity.
  - apply NoDup_singleton.
  - intros i Hi. apply list_elem_of_singleton in Hi as ->.
    apply list_elem_of_In. simpl. tauto.
Defined.

(** X11 on the dataset labelled 0 and 5: after the removal of no row,
    three more rows give the labels 0..4. *)
Lemma remove_data_then_add_data_dense_witness :
  ∃ s', remove_data [] true (start sparse_xopt) = (Ok None, s')
        ∧ index (rows_of (data (add_all (constant_generator 1) [three_rows] (self s'))))
          = arange 0 (n_data (self s') + sum_list (len <$> [three_rows])).
Proof.
  apply (remove_data_then_add_data_dense (constant_generator 1) (start sparse_xopt)
           sparse_rows [] [three_rows] eq_refl).
  intros i Hi. by apply elem_of_nil in Hi.
Defined.

(** X13 on the problem with the constant [c = 7]. *)
Lemma evaluate_never_stores_witness :
  evaluate (point 1) constant_state
  = (Ok (<["f" := num 0]> (point 1)), constant_state_end)
  ∧ self constant_state_end = self constant_state
  ∧ files (world constant_state_end) = files (world constant_state)
  ∧ ((Ok (<["f" := num 0]> (point 1)) = Raise ValidationError
      ∧ constant_state_end = constant_state)
     ∨ (calls (world constant_state_end)
        = calls (world constant_state) ++ [CallEvaluate (point 1)]
        ∧ Ok (<["f" := num 0]> (point 1))
          = evaluator_evaluate (evaluator (self constant_state)) (point 1))).
Proof.
  assert (evaluate (point 1) constant_state
          = (Ok (<["f" := num 0]> (point 1)), constant_state_end)) as Hrun
    by (vm_compute; reflexivity).
  split; [exact Hrun|].
  exact (evaluate_never_stores constant_state constant_state_end (point 1) _ Hrun).
Defined.

(** X14 on a dictionary with a list of two candidates and a scalar. *)
Lemma to_DataFrame_of_dictionary_witness :
  ∃ df, to_DataFrame (FromDict two_points) = Ok df
        ∧ len df = 2%nat
        ∧ index df = arange 0 2
        ∧ ∀ (j : nat) r, df !! j = Some r →
            (∀ k v, two_points !! k = Some (CScalar v) →
                    r.2 !! k = Some (CScalar v))
            ∧ (∀ k vs x, two_points !! k = Some (CList vs) → vs !! j = Some x →
                         r.2 !! k = Some (CScalar x)).
Proof.
  destruct (to_DataFrame_of_dictionary two_points) as (_ & _ & Hlists & _).
  apply (Hlists 2%nat "x" [SNum 1; SNum 2] eq_refl).
  intros k vs Hk.
  apply (proj1 (forallb_eqb_true 2 (list_lengths two_points)) eq_refl).
  apply elem_of_list_lengths. eauto.
Defined.

(** X15 on a list of two records. *)
Lemma to_DataFrame_labels_by_position_witness :
  index [(0, point 1); (1, point 2)] = arange 0 (len [(0, point 1); (1, point 2)])
  ∧ ∀ records, FromRecords [point 1; point 2] = FromRecords records →
               [(0, point 1); (1, point 2)].*2 = records.
Proof.
  apply (to_DataFrame_labels_by_position (FromRecords [point 1; point 2])
           [(0, point 1); (1, point 2)]).
  - intros given. discriminate.
  - reflexivity.
Defined.

(** X16 on a block with one field and the registry that knows the
    constant generator. *)
Lemma validate_model_dispatches_on_tag_witness :
  validate_model one_vocs one_generator_registry
    (Build_ModelData (Some (VocsObject (vocs_xf [])))
       (Some (GenDict (tag_generator "constant" seeded_block))))
  = and_then (one_generator_registry (SText "constant")) (λ generator_class,
    and_then (model_validate generator_class (with_vocs seeded_block (vocs_xf [])))
      (λ g, Ok (vocs_xf [], (gm_class generator_class, g)))).
Proof.
  apply (validate_model_dispatches_on_tag one_vocs one_generator_registry
           "constant" seeded_block (vocs_xf [])).
  reflexivity.
Defined.

(** X20 on a block that has a field [name] of its own. *)
Lemma tag_generator_hidden_witness :
  pop_name (tag_generator "constant" (<["name" := SText "mine"]> seeded_block))
  = Ok (SText "mine", delete "name" (<["name" := SText "mine"]> seeded_block)).
Proof.
  apply (tag_generator_hidden "constant"
           (<["name" := SText "mine"]> seeded_block) (SText "mine")).
  reflexivity.
Defined.


(** X19 on the driver that dumps to [out.yaml]. *)
Lemma evaluate_data_keeps_mirror_witness :
  evaluate_data (constant_generator 1) numeric_f (FromDict (point 1)) dumping_state
  = (Ok [(0, {[ "f" := num 0 ]})], dumping_state_end)
  ∧ mirrored (self dumping_state_end).
Proof.
  assert (evaluate_data (constant_generator 1) numeric_f (FromDict (point 1)) dumping_state
          = (Ok [(0, {[ "f" := num 0 ]})], dumping_state_end)) as Hrun
    by (vm_compute; reflexivity).
  split; [exact Hrun|].
  exact (evaluate_data_keeps_mirror (constant_generator 1) numeric_f dumping_state
           dumping_state_end (FromDict (point 1)) _
           (accumulative_constant_generator 1) eq_refl Hrun).
Defined.

(** ** The round trip through the document *)

Lemma elem_of_columns (df : DataFrame) (name : string) :
  name ∈ columns df ↔ ∃ r, r ∈ df ∧ is_Some (r.2 !! name).
Proof.
  unfold columns. rewrite elem_of_union_list. split.
  - intros (X & HX & Hin).
    apply list_elem_of_fmap in HX as (row & -> & Hrow).
    apply list_elem_of_fmap in Hrow as (r & -> & Hr).
    exists r. split; [done|]. by apply elem_of_dom.
  - intros (r & Hr & Hsome). exists (dom r.2). split.
    + apply list_elem_of_fmap. exists r.2. split; [done|].
      apply list_elem_of_fmap. by exists r.
    + by apply elem_of_dom.
Qed.

Lemma elem_of_block_labels (v : DataBlock) (label : Z) :
  label ∈ block_labels v ↔ ∃ name cells, v !! name = Some cells ∧ label ∈ dom cells.
Proof.
  unfold block_labels. rewrite elem_of_union_list. split.
  - intros (X & HX & Hl).
    apply list_elem_of_fmap in HX as (cells & -> & Hcells).
    apply list_elem_of_fmap in Hcells as ([name cells'] & -> & Hin).
    apply elem_of_map_to_list in Hin. eauto.
  - intros (name & cells & Hv & Hl). exists (dom cells). split; [|done].
    apply list_elem_of_fmap. exists cells. split; [done|].
    apply list_elem_of_fmap. exists (name, cells). split; [done|].
    by apply elem_of_map_to_list.
Qed.

Lemma Sorted_arange (a b : nat) : Sorted Z.le (arange a b).
Proof.
  unfold arange. generalize (b - a)%nat as n. intros n. revert a.
  induction n as [|n IH]; intros a; simpl; [constructor|].
  constructor; [apply IH|].
  destruct n; simpl; constructor. lia.
Qed.

Section Table.
Variable cell_to_json : Scalar → Scalar.

Lemma index_column_pairs (name : string) (df : DataFrame) :
  ((λ r : Z * Row, (r.1, write_cell cell_to_json <$> r.2 !! name)) <$> df).*1
  = index df.
Proof. unfold index. rewrite <- list_fmap_compose. by apply list_fmap_ext. Qed.

Lemma column_lookup (df : DataFrame) (name : string) (r : Z * Row) :
  NoDup (index df) → r ∈ df →
  column cell_to_json name df !! r.1
  = Some (write_cell cell_to_json <$> r.2 !! name).
Proof.
  intros Hnd Hr. unfold column. apply elem_of_list_to_map_1.
  - by rewrite index_column_pairs.
  - apply list_elem_of_fmap. by exists r.
Qed.

Lemma dom_column (df : DataFrame) (name : string) :
  dom (column cell_to_json name df) = list_to_set (index df).
Proof. unfold column. by rewrite dom_list_to_map_L, index_column_pairs. Qed.

Lemma table_block_lookup (df : DataFrame) (name : string) cells :
  table_block cell_to_json df !! name = Some cells
  ↔ name ∈ columns df ∧ cells = column cell_to_json name df.
Proof.
  unfold table_block. rewrite lookup_set_to_map by (by intros ?? _ _ ?). split.
  - by intros (y & Hy & [= -> ->]).
  - intros [? ->]. by exists name.
Qed.

Lemma block_labels_table (df : DataFrame) (label : Z) :
  label ∈ block_labels (table_block cell_to_json df)
  ↔ columns df ≠ ∅ ∧ label ∈ index df.
Proof.
  rewrite elem_of_block_labels. split.
  - intros (name & cells & Hcells & Hl).
    apply table_block_lookup in Hcells as [Hname ->].
    rewrite dom_column in Hl. apply elem_of_list_to_set in Hl.
    split; [|done]. intros Hempty. rewrite Hempty in Hname.
    by apply elem_of_empty in Hname.
  - intros [Hne Hl]. apply set_choose_L in Hne as [name Hname].
    exists name, (column cell_to_json name df).
    split; [by apply table_block_lookup|].
    rewrite dom_column. by apply elem_of_list_to_set.
Qed.

(** The row read back under a label is the row written, cell by cell. *)
Lemma block_row_table (df : DataFrame) (r : Z * Row) :
  NoDup (index df) → r ∈ df →
  block_row (table_block cell_to_json df) r.1 = write_cell cell_to_json <$> r.2.
Proof.
  intros Hnd Hr. apply map_eq. intros name.
  unfold block_row. rewrite lookup_omap, lookup_fmap.
  destruct (table_block cell_to_json df !! name) as [cells|] eqn:Hcells; simpl.
  - apply table_block_lookup in Hcells as [_ ->].
    by rewrite (column_lookup df name r Hnd Hr).
  - destruct (r.2 !! name) as [c|] eqn:Hcell; [|done]. exfalso.
    assert (table_block cell_to_json df !! name
            = Some (column cell_to_json name df)) as Hin; [|congruence].
    apply table_block_lookup. split; [|done].
    apply elem_of_columns. exists r. by rewrite Hcell.
Qed.

(** A table with distinct labels and a column comes back with its rows
    under their labels, sorted by label. *)
Lemma table_round_trip (df : DataFrame) :
  NoDup (index df) →
  (∀ r name c, r ∈ df → r.2 !! name = Some c → write_cell cell_to_json c = c) →
  df = [] ∨ columns df ≠ ∅ →
  DataFrame_of_json (table_block cell_to_json df) ≡ₚ df
  ∧ Sorted Z.le (index (DataFrame_of_json (table_block cell_to_json df)))
  ∧ (Sorted Z.le (index df) → DataFrame_of_json (table_block cell_to_json df) = df).
Proof.
  intros Hnd Hcells [->|Hcol].
  { assert (DataFrame_of_json (table_block cell_to_json []) = []) as ->
      by reflexivity.
    split; [done|]. split; [constructor | done]. }
  set (v := table_block cell_to_json df).
  set (labels := merge_sort Z.le (elements (block_labels v))).
  assert (∀ label, label ∈ labels ↔ label ∈ index df) as Hlabels.
  { intros label. unfold labels. rewrite merge_sort_Permutation, elem_of_elements.
    unfold v. rewrite block_labels_table. tauto. }
  assert (NoDup labels) as Hnd'.
  { unfold labels. rewrite merge_sort_Permutation. apply NoDup_elements. }
  assert (∀ r, r ∈ df → (r.1, block_row v r.1) = r) as Hrow.
  { intros [label row] Hr. unfold v.
    rewrite (block_row_table df (label, row) Hnd Hr). simpl. f_equal.
    apply map_eq. intros name. rewrite lookup_fmap.
    destruct (row !! name) as [c|] eqn:Hc; [|done]. simpl. f_equal.
    by apply (Hcells (label, row) name). }
  assert (index (DataFrame_of_json v) = labels) as Hindex.
  { unfold index, DataFrame_of_json. fold labels.
    rewrite <- list_fmap_compose. rewrite <- (list_fmap_id labels) at 2.
    by apply list_fmap_ext. }
  split; [|split].
  - apply NoDup_Permutation.
    + apply (NoDup_fmap_1 fst). fold (index (DataFrame_of_json v)).
      by rewrite Hindex.
    + by apply (NoDup_fmap_1 fst).
    + intros x. unfold DataFrame_of_json. fold labels.
      rewrite list_elem_of_fmap. split.
      * intros (label & -> & Hl). apply Hlabels in Hl.
        apply list_elem_of_fmap in Hl as (r & Heq & Hr).
        rewrite Heq. by rewrite (Hrow r Hr).
      * intros Hx. exists x.1. split; [by rewrite (Hrow x Hx)|].
        apply Hlabels. apply list_elem_of_fmap. by exists x.
  - rewrite Hindex. apply Sorted_merge_sort. apply _.
  - intros Hsorted.
    assert (labels = index df) as Heq.
    { apply (Sorted_unique Z.le); [|done|].
      - apply Sorted_merge_sort. apply _.
      - by apply NoDup_Permutation. }
    unfold DataFrame_of_json. fold labels. rewrite Heq.
    unfold index. rewrite <- list_fmap_compose.
    rewrite <- (list_fmap_id df) at 2.
    apply list_fmap_ext. intros i r Hr. apply Hrow.
    by eapply list_elem_of_lookup_2.
Qed.

End Table.

Lemma write_cell_same (c : Cell) : write_cell same_cell c = c.
Proof. destruct c as [v|vs]; simpl; [done|]. by rewrite list_fmap_id. Qed.

Section RoundTrip.
Context {C : Type}.
Variable cls : GeneratorClass C.
Variable vocs_to_json : VOCS → gmap string Scalar.
Variable generator_to_json : Generator C → gmap string Scalar.
Variable evaluator_to_json : Evaluator → gmap string Scalar.
Variable cell_to_json : Scalar → Scalar.
Variable VOCS_new : gmap string Scalar → Result VOCS.
Variable get_generator : Scalar → Result (GeneratorModel C).
Variable Evaluator_new : gmap string Scalar → Result Evaluator.
Variable without_data : GeneratorClass C → Generator C → Generator C.

(** [json] fails exactly on a table with a repeated label. *)
Lemma json_eq (X : Xopt C) :
  json cls vocs_to_json generator_to_json evaluator_to_json cell_to_json X
  = if bool_decide (NoDup (index (rows_of (data X))))
    then Ok {| doc_vocs := vocs_to_json (vocs X);
               doc_generator :=
                 tag_generator (name cls) (generator_to_json (generator X));
               doc_evaluator := evaluator_to_json (evaluator X);
               doc_strict := strict X;
               doc_dump_file := dump_file X;
               doc_max_evaluations := max_evaluations X;
               doc_data := table_block cell_to_json <$> data X;
               doc_serialize_torch := serialize_torch X;
               doc_serialize_inline := serialize_inline X |}
    else Raise SerializationError.
Proof.
  unfold json, DataFrame_to_json. destruct (data X) as [d|]; simpl.
  - by destruct (bool_decide (NoDup (index d))).
  - reflexivity.
Qed.

(** C7, as the code has it.  The serialisers of the problem, of the
    generator, of the evaluator and of a cell are those of the
    libraries; they are taken to read back what they write, the
    registry to know the class of the generator under its name, and the
    block of the generator to have no field [name] of its own.  Then:
    a dataset with a repeated label has no document; otherwise the
    document carries the registered name on the block of the generator,
    and the driver built from it has the same problem, evaluator and
    scalar settings, the generator that the registered class builds from
    the same block, handed the dataset read back, and, for a dataset
    with a column or without row, the rows of the dataset under their
    labels in the ascending order of the labels: the same table when
    the labels were ascending, as those of a dense index are. *)
Theorem document_round_trip (X : Xopt C) (generator_class : GeneratorModel C)
    (g0 : Generator C) :
  VOCS_new (vocs_to_json (vocs X)) = Ok (vocs X) →
  Evaluator_new (evaluator_to_json (evaluator X)) = Ok (evaluator X) →
  (∀ r name c, r ∈ rows_of (data X) → r.2 !! name = Some c →
               write_cell cell_to_json c = c) →
  generator_to_json (generator X) !! "name" = None →
  get_generator (SText (name cls)) = Ok generator_class →
  gm_class generator_class = cls →
  model_validate generator_class
    (with_vocs (generator_to_json (generator X)) (vocs X)) = Ok g0 →
  (¬ NoDup (index (rows_of (data X))) →
   json cls vocs_to_json generator_to_json evaluator_to_json cell_to_json X
   = Raise SerializationError)
  ∧ (NoDup (index (rows_of (data X))) →
     ∃ doc X',
       json cls vocs_to_json generator_to_json evaluator_to_json cell_to_json X
       = Ok doc
       ∧ doc_generator doc !! "name" = Some (SText (name cls))
       ∧ Xopt_of_document VOCS_new get_generator Evaluator_new without_data doc
         = Ok (cls, X')
       ∧ vocs X' = vocs X
       ∧ evaluator X' = evaluator X
       ∧ strict X' = strict X
       ∧ dump_file X' = dump_file X
       ∧ max_evaluations X' = max_evaluations X
       ∧ serialize_torch X' = serialize_torch X
       ∧ serialize_inline X' = serialize_inline X
       ∧ generator X'
         = match data X' with
           | Some d' => (validate_data cls d' g0).2
           | None => without_data cls g0
           end
       ∧ match data X with
         | None => data X' = None
         | Some d =>
             ∃ d', data X' = Some d'
               ∧ (d = [] ∨ columns d ≠ ∅ →
                  d' ≡ₚ d
                  ∧ Sorted Z.le (index d')
                  ∧ (Sorted Z.le (index d) → d' = d)
                  ∧ (dense d → d' = d))
         end).
Proof.
  intros Hvocs Hev Hcells Hname Hreg Hcls Hgen. rewrite json_eq. split.
  { intros Hdup. by rewrite bool_decide_eq_false_2. }
  intros Hnd. rewrite bool_decide_eq_true_2 by done.
  eexists.
  assert (∀ v : option DataBlock,
            ∃ X', Xopt_of_document VOCS_new get_generator Evaluator_new without_data
                    {| doc_vocs := vocs_to_json (vocs X);
                       doc_generator :=
                         tag_generator (name cls) (generator_to_json (generator X));
                       doc_evaluator := evaluator_to_json (evaluator X);
                       doc_strict := strict X;
                       doc_dump_file := dump_file X;
                       doc_max_evaluations := max_evaluations X;
                       doc_data := v;
                       doc_serialize_torch := serialize_torch X;
                       doc_serialize_inline := serialize_inline X |}
                  = Ok (cls, X')
                  ∧ vocs X' = vocs X
                  ∧ evaluator X' = evaluator X
                  ∧ strict X' = strict X
                  ∧ dump_file X' = dump_file X
                  ∧ max_evaluations X' = max_evaluations X
                  ∧ serialize_torch X' = serialize_torch X
                  ∧ serialize_inline X' = serialize_inline X
                  ∧ generator X'
                    = match data X' with
                      | Some d' => (validate_data cls d' g0).2
                      | None => without_data cls g0
                      end
                  ∧ data X' = DataFrame_of_json <$> v) as Hback.
  { intros v. unfold Xopt_of_document, validate_model, validate_evaluator. simpl.
    rewrite Hvocs. simpl.
    rewrite (tag_generator_pop_name _ _ Hname). simpl.
    rewrite Hreg. simpl. rewrite Hgen. simpl. rewrite Hev, Hcls. simpl.
    destruct v as [block|]; simpl.
    - unfold validate_data. destruct (state_owner cls); eexists; by repeat split.
    - eexists. by repeat split. }
  destruct (Hback (table_block cell_to_json <$> data X))
    as (X' & Hdoc & ? & ? & ? & ? & ? & ? & ? & ? & Hdata).
  exists X'. split; [done|]. split.
  { simpl. unfold tag_generator. apply lookup_union_Some_raw. right.
    split; [done|]. apply lookup_singleton_eq. }
  repeat (split; [done|]).
  destruct (data X) as [d|]; simpl in *; [|done].
  eexists. split; [done|]. intros Hshape.
  destruct (table_round_trip cell_to_json d Hnd Hcells Hshape) as (Hperm & Hsort & Hsame).
  split; [done|]. split; [done|]. split; [done|].
  intros Hdense. apply Hsame. rewrite Hdense. apply Sorted_arange.
Qed.

End RoundTrip.

(** C7 on a driver built with three rows labelled 0, 1, 2: the driver
    built from its document has the same table. *)
Lemma document_round_trip_witness :
  ∃ doc X',
    json_of saved_xopt = Ok doc
    ∧ doc_generator doc !! "name" = Some (SText "constant")
    ∧ xopt_of doc = Ok (constant_generator 1, X')
    ∧ vocs X' = vocs saved_xopt
    ∧ evaluator X' = evaluator saved_xopt
    ∧ max_evaluations X' = max_evaluations saved_xopt
    ∧ data X' = data saved_xopt.
Proof.
  destruct (document_round_trip (constant_generator 1) no_fields (λ _, seeded_block)
              no_fields same_cell one_vocs one_generator_registry one_evaluator
              (λ _ g, g) saved_xopt
              {| gm_class := constant_generator 1;
                 model_validate := λ _, Ok (blank tt) |}
              (blank tt)) as [_ Hback].
  - reflexivity.
  - reflexivity.
  - intros r name c _ _. apply write_cell_same.
  - reflexivity.
  - reflexivity.
  - reflexivity.
  - reflexivity.
  - destruct Hback as (doc & X' & Hdoc & Htag & Hnew & Hv & He & _ & _ & Hcap & _ & _ & _ & Hdata).
    { apply (bool_decide_unpack _). vm_compute. reflexivity. }
    exists doc, X'. repeat (split; [assumption|]).
    simpl in Hdata. destruct Hdata as (d' & -> & Hsame).
    destruct Hsame as (_ & _ & _ & Hdense).
    { right. apply (bool_decide_unpack _). vm_compute. reflexivity. }
    rewrite Hdense; reflexivity.
Defined.

(** C7 as stated fails: a driver built with the rows labelled 1 and 0,
    in this order, has a document, and the driver built from the
    document holds the row labelled 0 first: [sort_index] has put the
    rows in the order of their labels, and the table is not the table
    of the driver. *)
Lemma document_round_trip_counterexample :
  ∃ doc,
    json_of unsorted_xopt = Ok doc
    ∧ xopt_of doc = Ok (constant_generator 1, unsorted_xopt_back)
    ∧ index (rows_of (data unsorted_xopt)) = [1; 0]
    ∧ index (rows_of (data unsorted_xopt_back)) = [0; 1]
    ∧ rows_of (data unsorted_xopt) !! 0%nat = Some (1, <["f" := num 0]> (point 1))
    ∧ rows_of (data unsorted_xopt_back) !! 0%nat
      = Some (0, <["f" := num 0]> (point 2))
    ∧ data unsorted_xopt_back ≠ data unsorted_xopt.
Proof.
  eexists. split; [vm_compute; reflexivity|].
  split; [vm_compute; reflexivity|].
  split; [reflexivity|]. split; [reflexivity|].
  split; [reflexivity|]. split; [reflexivity|].
  intros Heq. vm_compute in Heq. discriminate.
Qed.
